(** * muove: the video compositor of [src/main.js], last revision of the file
    (class [VideoCompositor], source lines 982-1467).

    The development embeds the layer model, the upload handler, the
    compositor's geometry, the chroma-key pixel loop and the export pipeline
    as Rocq functions, and states the properties of the specification on
    them.

    Numbers.  A JavaScript number is modelled by a real number: the
    arithmetic of the source ([+], [-], [*], [/], [Math.sqrt], [Math.pow],
    [Math.round], [Math.min], [Math.max], [<], [>=]) is the exact one, so the
    rounding of IEEE doubles and the values [Infinity] and [-0] are not
    represented.  [NaN] and [undefined] are represented where the source can
    produce them from its inputs ([parseInt] of a colour string, a missing
    [duration], a missing [videoWidth]) by [option].  Pixel channels, pixel
    dimensions and the millisecond counter of the export are integers. *)

From Stdlib Require Import ZArith Reals Lra Lia List String Ascii Bool.
From Stdlib Require Import DecimalString.
Import ListNotations.

Set Implicit Arguments.

(** ** JavaScript primitives used by the source *)

Module JS.

Local Open Scope R_scope.

(** [x < y] and [x >= y] on numbers, as booleans. *)
Definition ltb (x y : R) : bool := if Rlt_dec x y then true else false.
Definition geb (x y : R) : bool := if Rle_dec y x then true else false.

(** [Math.round]: the integer nearest to [x], a tie going up. *)
Definition Math_round (x : R) : Z := Zfloor (x + 1 / 2).

(** The conversion applied by a store into a [Uint8ClampedArray] (the type
    of [ImageData.data]): clamp to 0..255, then round to the nearest
    integer, a tie going to the even one. *)
Definition toUint8Clamp (x : R) : Z :=
  if Rle_dec x 0 then 0%Z
  else if Rle_dec 255 x then 255%Z
  else
    let f := Zfloor x in
    if Rlt_dec (IZR f + 1 / 2) x then (f + 1)%Z
    else if Rlt_dec x (IZR f + 1 / 2) then f
    else if Z.even f then f else (f + 1)%Z.

(** [a || b] where [a] is a possibly undefined integer property: [b] when
    [a] is undefined or 0. *)
Definition orZ (a : option Z) (b : Z) : Z :=
  match a with
  | Some v => if (v =? 0)%Z then b else v
  | None => b
  end.

(** [a || b] where [a] is a possibly undefined (or NaN) number. *)
Definition orR (a : option R) (b : R) : R :=
  match a with
  | Some v => if Req_dec_T v 0 then b else v
  | None => b
  end.

Local Open Scope string_scope.
Local Open Scope char_scope.

(** [String.prototype.toLowerCase], on the ASCII letters. *)
Definition lowerAscii (c : ascii) : ascii :=
  let n := nat_of_ascii c in
  if (65 <=? n)%nat && (n <=? 90)%nat then ascii_of_nat (n + 32) else c.

Fixpoint toLowerCase (s : string) : string :=
  match s with
  | EmptyString => EmptyString
  | String c s' => String (lowerAscii c) (toLowerCase s')
  end.

Definition startsWith (s p : string) : bool := String.prefix p s.

Fixpoint drop (n : nat) (s : string) : string :=
  match n, s with
  | O, _ => s
  | S n', EmptyString => EmptyString
  | S n', String _ s' => drop n' s'
  end.

Definition endsWith (s p : string) : bool :=
  (String.length p <=? String.length s)%nat
  && String.eqb (drop (String.length s - String.length p) s) p.

(** [s.replace(pat, rep)] with a string pattern: the first occurrence. *)
Fixpoint replace (pat rep s : string) : string :=
  if String.prefix pat s then String.append rep (drop (String.length pat) s)
  else match s with
       | EmptyString => EmptyString
       | String c s' => String c (replace pat rep s')
       end.

(** [s.slice(from, to)] for [0 <= from <= to]. *)
Definition slice (from to : nat) (s : string) : string :=
  String.substring from (to - from) s.

Definition hexDigit (c : ascii) : option Z :=
  let n := nat_of_ascii c in
  if (48 <=? n)%nat && (n <=? 57)%nat then Some (Z.of_nat (n - 48))
  else if (97 <=? n)%nat && (n <=? 102)%nat then Some (Z.of_nat (n - 87))
  else if (65 <=? n)%nat && (n <=? 70)%nat then Some (Z.of_nat (n - 55))
  else None.

Definition isWhiteSpace (c : ascii) : bool :=
  let n := nat_of_ascii c in
  ((9 <=? n)%nat && (n <=? 13)%nat) || (n =? 32)%nat.

Fixpoint trimStart (s : string) : string :=
  match s with
  | String c s' => if isWhiteSpace c then trimStart s' else s
  | EmptyString => EmptyString
  end.

(** The value of the longest prefix of hexadecimal digits, [acc] being the
    value of the digits read so far ([None] when there is no digit). *)
Fixpoint hexPrefix (acc : option Z) (s : string) : option Z :=
  match s with
  | String c s' =>
      match hexDigit c with
      | Some d =>
          hexPrefix (Some (16 * match acc with Some a => a | None => 0 end + d)%Z) s'
      | None => acc
      end
  | EmptyString => acc
  end.

(** [parseInt(s, 16)]; [None] is NaN. *)
Definition parseInt16 (s : string) : option Z :=
  let s1 := trimStart s in
  let '(sign, s2) :=
    match s1 with
    | String "-" t => ((-1)%Z, t)
    | String "+" t => (1%Z, t)
    | _ => (1%Z, s1)
    end in
  let s3 :=
    match s2 with
    | String "0" (String "x" t) => t
    | String "0" (String "X" t) => t
    | _ => s2
    end in
  option_map (Z.mul sign) (hexPrefix None s3).

(** [`${n}`] for an integer [n]. *)
Definition showZ (n : Z) : string := NilZero.string_of_int (Z.to_int n).

End JS.

(** ** The chroma-key engine ([applyChromaKey], lines 1325-1361) *)

Module ChromaKey.

Local Open Scope R_scope.

(** Lines 1335-1337: the three channels of the target colour. *)
Definition parseTarget (targetHex : string) : option Z * option Z * option Z :=
  (JS.parseInt16 (JS.slice 1 3 targetHex),
   JS.parseInt16 (JS.slice 3 5 targetHex),
   JS.parseInt16 (JS.slice 5 7 targetHex)).

(** Lines 1345-1349 on numeric channels. *)
Definition distance (r g b rT gT bT : Z) : R :=
  sqrt ((IZR r - IZR rT) ^ 2 + (IZR g - IZR gT) ^ 2 + (IZR b - IZR bT) ^ 2)
  / 441.67.

(** Lines 1345-1349: [None] is the NaN obtained from a NaN channel. *)
Definition diff (r g b : Z) (target : option Z * option Z * option Z) : option R :=
  match target with
  | (Some rT, Some gT, Some bT) => Some (distance r g b rT gT bT)
  | _ => None
  end.

(** Line 1355: the number assigned in the feather band. *)
Definition feather (d tolerance : R) : R := ((d - tolerance) / 0.05) * 255.

(** Lines 1351-1356: the alpha channel after the two tests; every
    comparison with NaN is false. *)
Definition keyAlpha (d : option R) (tolerance : R) (a : Z) : Z :=
  match d with
  | None => a
  | Some d =>
      if JS.ltb d tolerance then 0%Z
      else if JS.ltb d (tolerance + 0.05) then JS.toUint8Clamp (feather d tolerance)
      else a
  end.

(** Lines 1339-1357: the loop over the RGBA buffer, four entries a step.
    A last group of fewer than four entries is left as it is (its missing
    entries read as [undefined], and a store past the end of a typed array
    does nothing). *)
Fixpoint keyLoop (target : option Z * option Z * option Z) (tolerance : R)
         (data : list Z) : list Z :=
  match data with
  | r :: g :: b :: a :: rest =>
      r :: g :: b :: keyAlpha (diff r g b target) tolerance a
        :: keyLoop target tolerance rest
  | tail => tail
  end.

(** The pixel buffer drawn by [applyChromaKey] for the frame [data] of the
    source at its natural size. *)
Definition applyChromaKey (data : list Z) (targetHex : string) (tolerance : R)
  : list Z :=
  keyLoop (parseTarget targetHex) tolerance data.

(** The pixel number [k] of a buffer. *)
Definition pixel (data : list Z) (k : nat) : option (Z * Z * Z * Z) :=
  match nth_error data (4 * k), nth_error data (4 * k + 1),
        nth_error data (4 * k + 2), nth_error data (4 * k + 3) with
  | Some r, Some g, Some b, Some a => Some (r, g, b, a)
  | _, _, _, _ => None
  end.

End ChromaKey.

(** ** The layer model and the state of [VideoCompositor] (lines 982-1012) *)

Module Compositor.

Local Open Scope R_scope.

(** The keys of [this.layers], in insertion order. *)
Inductive LayerKey := background | character | overlay.

(** The values of [layer.type] other than [null]. *)
Inductive LayerType := video | image | placeholder.

(** What [layer.element], [layer.posterFrame] and the local [el] of
    [drawLayer] can hold: a video element created by [handleUpload] (with
    its [videoWidth], [videoHeight] and [duration], [None] for a NaN
    duration), an image (with its [width] and [height]), the placeholder
    object of line 1183, or the canvas of a poster frame. *)
Inductive Element :=
| VideoElement (videoWidth videoHeight : Z) (duration : option R)
| ImageElement (width height : Z)
| PlaceholderObject (width height : Z) (name : string)
| CanvasElement (width height : Z).

(** [el.videoWidth] and [el.videoHeight]: undefined outside videos. *)
Definition videoWidth (el : Element) : option Z :=
  match el with VideoElement w _ _ => Some w | _ => None end.
Definition videoHeight (el : Element) : option Z :=
  match el with VideoElement _ h _ => Some h | _ => None end.

(** [el.width] and [el.height]; a video element made by
    [document.createElement] has no [width] attribute, which reads as 0. *)
Definition width (el : Element) : Z :=
  match el with
  | VideoElement _ _ _ => 0
  | ImageElement w _ | PlaceholderObject w _ _ | CanvasElement w _ => w
  end.
Definition height (el : Element) : Z :=
  match el with
  | VideoElement _ _ _ => 0
  | ImageElement _ h | PlaceholderObject _ h _ | CanvasElement _ h => h
  end.

(** [el.duration]: undefined outside videos. *)
Definition elDuration (el : Element) : option R :=
  match el with VideoElement _ _ d => d | _ => None end.

(** [el.name] as the template of line 1295 prints it. *)
Definition elName (el : Element) : string :=
  match el with
  | PlaceholderObject _ _ n => n
  | ImageElement _ _ => ""
  | _ => "undefined"
  end.

Record Layer := mkLayer {
  element : option Element;
  type : option LayerType;
  x : R;
  y : R;
  scale : R;
  opacity : R;
  chromaKey : bool;
  chromaColor : string;
  tolerance : R;
  posterFrame : option Element
}.

(** Lines 990-992. *)
Definition defaultLayer : Layer :=
  mkLayer None None 0 0 1 1 false "#00ff00" 0.1 None.

Definition set_element (v : option Element) (l : Layer) : Layer :=
  mkLayer v (type l) (x l) (y l) (scale l) (opacity l) (chromaKey l)
          (chromaColor l) (tolerance l) (posterFrame l).
Definition set_type (v : option LayerType) (l : Layer) : Layer :=
  mkLayer (element l) v (x l) (y l) (scale l) (opacity l) (chromaKey l)
          (chromaColor l) (tolerance l) (posterFrame l).
Definition set_x (v : R) (l : Layer) : Layer :=
  mkLayer (element l) (type l) v (y l) (scale l) (opacity l) (chromaKey l)
          (chromaColor l) (tolerance l) (posterFrame l).
Definition set_y (v : R) (l : Layer) : Layer :=
  mkLayer (element l) (type l) (x l) v (scale l) (opacity l) (chromaKey l)
          (chromaColor l) (tolerance l) (posterFrame l).
Definition set_scale (v : R) (l : Layer) : Layer :=
  mkLayer (element l) (type l) (x l) (y l) v (opacity l) (chromaKey l)
          (chromaColor l) (tolerance l) (posterFrame l).
Definition set_opacity (v : R) (l : Layer) : Layer :=
  mkLayer (element l) (type l) (x l) (y l) (scale l) v (chromaKey l)
          (chromaColor l) (tolerance l) (posterFrame l).
Definition set_chromaKey (v : bool) (l : Layer) : Layer :=
  mkLayer (element l) (type l) (x l) (y l) (scale l) (opacity l) v
          (chromaColor l) (tolerance l) (posterFrame l).
Definition set_chromaColor (v : string) (l : Layer) : Layer :=
  mkLayer (element l) (type l) (x l) (y l) (scale l) (opacity l) (chromaKey l)
          v (tolerance l) (posterFrame l).
Definition set_tolerance (v : R) (l : Layer) : Layer :=
  mkLayer (element l) (type l) (x l) (y l) (scale l) (opacity l) (chromaKey l)
          (chromaColor l) v (posterFrame l).
Definition set_posterFrame (v : option Element) (l : Layer) : Layer :=
  mkLayer (element l) (type l) (x l) (y l) (scale l) (opacity l) (chromaKey l)
          (chromaColor l) (tolerance l) v.

(** [this.layers]. *)
Record Layers := mkLayers {
  l_background : Layer;
  l_character : Layer;
  l_overlay : Layer
}.

(** A poster capture scheduled by [setTimeout] (lines 1139-1148), with the
    layer key and the video element its closure holds. *)
Record PosterTask := mkPosterTask {
  task_layer : LayerKey;
  task_el : Element
}.

(** The fields of the [VideoCompositor] object, the size of its canvas and
    the poster captures waiting for their timeout. *)
Record State := mkState {
  layers : Layers;
  isPlaying : bool;
  isExporting : bool;
  duration : R;
  resolution : Z * Z;
  canvas : Z * Z;
  selectedLayer : LayerKey;
  timers : list PosterTask
}.

(** [this.layers[k]] *)
Definition getLayer (st : State) (k : LayerKey) : Layer :=
  match k with
  | background => l_background (layers st)
  | character => l_character (layers st)
  | overlay => l_overlay (layers st)
  end.

Definition set_layers (ls : Layers) (st : State) : State :=
  mkState ls (isPlaying st) (isExporting st) (duration st) (resolution st)
          (canvas st) (selectedLayer st) (timers st).

(** An update of the object [this.layers[k]] in place. *)
Definition updLayer (k : LayerKey) (f : Layer -> Layer) (st : State) : State :=
  let ls := layers st in
  set_layers
    match k with
    | background => mkLayers (f (l_background ls)) (l_character ls) (l_overlay ls)
    | character => mkLayers (l_background ls) (f (l_character ls)) (l_overlay ls)
    | overlay => mkLayers (l_background ls) (l_character ls) (f (l_overlay ls))
    end st.

(** [Object.keys(this.layers).forEach(k => ...)] updating each layer. *)
Definition forEachLayer (f : Layer -> Layer) (st : State) : State :=
  updLayer overlay f (updLayer character f (updLayer background f st)).

(** Lines 1202-1205. *)
Definition resizeCanvas (st : State) : State :=
  mkState (layers st) (isPlaying st) (isExporting st) (duration st)
          (resolution st) (resolution st) (selectedLayer st) (timers st).

(** The constructor followed by [init] (lines 983-1012). *)
Definition initial : State :=
  resizeCanvas
    (mkState (mkLayers defaultLayer defaultLayer defaultLayer)
             false false 0 (1920, 1080)%Z (300, 150)%Z character []).

(** *** The controls of [setupEventListeners] (lines 1031-1072) *)

(** The four inputs of line 1032. *)
Inductive SharedControl := posX | posY | scaleInput | opacityInput.

Definition controlId (c : SharedControl) : string :=
  match c with
  | posX => "posX"
  | posY => "posY"
  | scaleInput => "scale"
  | opacityInput => "opacity"
  end.

(** [layer[key] = v] for a number [v]; a key that names none of the
    numeric fields adds a property no other code reads. *)
Definition assignField (key : string) (v : R) (l : Layer) : Layer :=
  if String.eqb key "x" then set_x v l
  else if String.eqb key "y" then set_y v l
  else if String.eqb key "scale" then set_scale v l
  else if String.eqb key "opacity" then set_opacity v l
  else if String.eqb key "tolerance" then set_tolerance v l
  else l.

(** Lines 1033-1037: the [input] listener of the control [c], [v] being
    [parseFloat(e.target.value)]. *)
Definition onSharedInput (c : SharedControl) (v : R) (st : State) : State :=
  let key := JS.toLowerCase (JS.replace "pos" "" (controlId c)) in
  updLayer (selectedLayer st) (assignField key v) st.

(** Lines 1041-1049. *)
Definition onChromaToggle (checked : bool) (st : State) : State :=
  updLayer (selectedLayer st) (set_chromaKey checked) st.
Definition onChromaColor (value : string) (st : State) : State :=
  updLayer (selectedLayer st) (set_chromaColor value) st.
Definition onChromaTolerance (v : R) (st : State) : State :=
  updLayer (selectedLayer st) (set_tolerance v) st.

(** Lines 1052-1062: the [change] listener of the resolution select, [w]
    and [h] being the two numbers read from its value. *)
Definition onResolutionChange (w h : Z) (st : State) : State :=
  let st1 :=
    mkState (layers st) (isPlaying st) (isExporting st) (duration st)
            (w, h) (canvas st) (selectedLayer st) (timers st) in
  let st2 := resizeCanvas st1 in
  forEachLayer (fun l => set_y 0 (set_x 0 l)) st2.

(** Lines 1067-1072. *)
Definition onCenter (st : State) : State :=
  updLayer (selectedLayer st) (fun l => set_y 0 (set_x 0 l)) st.

(** Lines 1207-1223; [byHeight] is [dimension === 'height']. *)
Definition fitLayer (byHeight : bool) (st : State) : State :=
  let layer := getLayer st (selectedLayer st) in
  match element layer with
  | None => st
  | Some el =>
      let elW := JS.orZ (videoWidth el) (width el) in
      let elH := JS.orZ (videoHeight el) (height el) in
      let s :=
        if byHeight then IZR (snd (canvas st)) / IZR elH
        else IZR (fst (canvas st)) / IZR elW in
      updLayer (selectedLayer st)
               (fun l => set_y 0 (set_x 0 (set_scale s l))) st
  end.

(** *** The upload handler ([handleUpload], lines 1119-1200) *)

(** [file.name] and [file.type] of the selected file. *)
Record File := mkFile {
  fileName : string;
  fileType : string
}.

(** Lines 1124-1125. *)
Definition isVideo (file : File) : bool :=
  JS.startsWith (fileType file) "video"
  || JS.endsWith (JS.toLowerCase (fileName file)) ".mov".

Definition uploadType (file : File) : LayerType :=
  if isVideo file then video else image.

Definition isBackground (k : LayerKey) : bool :=
  match k with background => true | _ => false end.

Definition isVideoType (t : LayerType) : bool :=
  match t with video => true | _ => false end.

(** Lines 1154-1166: the scale after the automatic fit. *)
Definition autoFit (cv : Z * Z) (el : Element) (l : Layer) : Layer :=
  let elW := JS.orZ (videoWidth el) (width el) in
  let elH := JS.orZ (videoHeight el) (height el) in
  if (elH >? elW)%Z && (snd cv <? fst cv)%Z then
    set_scale (IZR (snd cv) / IZR elH) l
  else if (elW >? elH)%Z && (fst cv <? snd cv)%Z then
    set_scale (IZR (fst cv) / IZR elW) l
  else l.

(** Lines 1127-1173: the closure [setupElement(el, isError)] of an upload
    into [layerKey] whose file has the type [type].  The poster capture of
    lines 1139-1148 is queued in [timers]; the updates of the page (the
    active control group, [syncControls]) are not part of the state. *)
Definition setupElement (layerKey : LayerKey) (type : LayerType)
           (el : Element) (isError : bool) (st : State) : State :=
  let st1 :=
    updLayer layerKey
      (fun l =>
         set_scale 1
           (set_y 0
              (set_x 0
                 (set_type (Some (if isError then placeholder else type))
                    (set_element (Some el) l))))) st in
  let duration1 :=
    if isBackground layerKey && negb isError
    then Rmax (duration st1) (JS.orR (elDuration el) 0)
    else duration st1 in
  let timers1 :=
    if isVideoType type && negb isError
    then timers st1 ++ [mkPosterTask layerKey el]
    else timers st1 in
  let st2 :=
    mkState (layers st1) (isPlaying st1) (isExporting st1) duration1
            (resolution st1) (canvas st1) layerKey timers1 in
  if isBackground layerKey || negb isError
  then updLayer layerKey (autoFit (canvas st2) el) st2
  else st2.

(** Lines 1139-1148: the body of a poster timeout; [drawn] is false when
    [drawImage] throws, which the handler catches. *)
Definition posterTimeout (task : PosterTask) (drawn : bool) (st : State) : State :=
  if drawn then
    let el := task_el task in
    let posterCanvas :=
      CanvasElement (JS.orZ (videoWidth el) 1920) (JS.orZ (videoHeight el) 1080) in
    updLayer (task_layer task) (set_posterFrame (Some posterCanvas)) st
  else st.

(** The oldest poster timeout fires. *)
Definition runTimer (drawn : bool) (st : State) : State :=
  match timers st with
  | [] => st
  | task :: rest =>
      posterTimeout task drawn
        (mkState (layers st) (isPlaying st) (isExporting st) (duration st)
                 (resolution st) (canvas st) (selectedLayer st) rest)
  end.

(** What the element created by [handleUpload] reports afterwards. *)
Inductive LoadEvent :=
| loadedmetadata (videoWidth videoHeight : Z) (duration : option R)
| load (width height : Z)
| error.

(** Lines 1119-1200: [handleUpload(event, layerKey)] for the first selected
    file, together with the one event its element fires.  The image has no
    error listener; an event that the element of the file's type cannot
    fire changes nothing. *)
Definition handleUpload (file : option File) (layerKey : LayerKey)
           (ev : LoadEvent) (st : State) : State :=
  match file with
  | None => st
  | Some file =>
      let type := uploadType file in
      match type, ev with
      | video, error =>
          let placeholder :=
            PlaceholderObject 1280 720 (fileName file) in
          setupElement layerKey type placeholder true st
      | video, loadedmetadata vw vh d =>
          setupElement layerKey type (VideoElement vw vh d) false st
      | image, load w h =>
          setupElement layerKey type (ImageElement w h) false st
      | _, _ => st
      end
  end.

(** *** The compositor ([draw] and [drawLayer], lines 1259-1323) *)

(** What [drawLayer] paints for one layer: the labelled rectangle of a
    placeholder (lines 1284-1297, the label being the first line of text),
    [ctx.drawImage(el, dx, dy, sw, sh)], or the call of [applyChromaKey],
    each with the number assigned to [ctx.globalAlpha] before it. *)
Inductive DrawCmd :=
| PlaceholderBox (px py pw ph : R) (globalAlpha : R) (label : string)
| DrawImage (el : Element) (dx dy sw sh : R) (globalAlpha : R)
| DrawKeyed (el : Element) (dx dy sw sh : R) (globalAlpha : R)
            (targetHex : string) (tolerance : R).

Definition isPlaceholderType (t : option LayerType) : bool :=
  match t with Some placeholder => true | _ => false end.

Definition isVideoLayer (t : option LayerType) : bool :=
  match t with Some video => true | _ => false end.

(** Lines 1270-1323; [None] is the early return of line 1272. *)
Definition drawLayer (st : State) (key : LayerKey) : option DrawCmd :=
  let layer := getLayer st key in
  match element layer with
  | None => None
  | Some el0 =>
      let '(cw, ch) := canvas st in
      if isPlaceholderType (type layer) then
        let pw := IZR (width el0) * scale layer in
        let ph := IZR (height el0) * scale layer in
        let px := (IZR cw / 2) + x layer - (pw / 2) in
        let py := (IZR ch / 2) + y layer - (ph / 2) in
        Some (PlaceholderBox px py pw ph (opacity layer * 0.5)
                (String.append "Unsupported: " (elName el0)))
      else
        let el :=
          match posterFrame layer with
          | Some poster =>
              if isVideoLayer (type layer) && negb (isExporting st)
                 && negb (isBackground key)
              then poster else el0
          | None => el0
          end in
        let elW := JS.orZ (videoWidth el) (width el) in
        let elH := JS.orZ (videoHeight el) (height el) in
        let sw := IZR elW * scale layer in
        let sh := IZR elH * scale layer in
        let dx := (IZR cw / 2) + x layer - (sw / 2) in
        let dy := (IZR ch / 2) + y layer - (sh / 2) in
        if chromaKey layer then
          Some (DrawKeyed el dx dy sw sh (opacity layer)
                  (chromaColor layer) (tolerance layer))
        else
          Some (DrawImage el dx dy sw sh (opacity layer))
  end.

(** Lines 1259-1268: the commands of one frame, in painting order. *)
Definition draw (st : State) : list DrawCmd :=
  let cmd k := match drawLayer st k with Some c => [c] | None => [] end in
  cmd background ++ cmd character ++ cmd overlay.

(** The destination rectangle of a command: origin and size. *)
Definition rect (c : DrawCmd) : (R * R) * (R * R) :=
  match c with
  | PlaceholderBox px py pw ph _ _ => ((px, py), (pw, ph))
  | DrawImage _ dx dy sw sh _ => ((dx, dy), (sw, sh))
  | DrawKeyed _ dx dy sw sh _ _ _ => ((dx, dy), (sw, sh))
  end.


End Compositor.

(** ** The export pipeline ([exportVideo], lines 1379-1466) *)

Module ExportPipeline.

Import Compositor.
Local Open Scope R_scope.

Definition mp4Type : string := "video/mp4; codecs=avc1.42E01E".
Definition webmType : string := "video/webm; codecs=vp9".

(** Lines 1419-1427: [options.mimeType], [extension] and the messages of
    [console.warn] after the test of [MediaRecorder.isTypeSupported]. *)
Definition negotiate (isTypeSupported : string -> bool)
  : string * string * list string :=
  let options := mp4Type in
  let extension := "mp4"%string in
  if negb (isTypeSupported options)
  then (webmType, "webm"%string,
        ["video/mp4 not supported, falling back to video/webm"%string])
  else (options, extension, []).

(** The variables that the closures of one call of [exportVideo] share. *)
Record Session := mkSession {
  mimeType : string;
  extension : string;
  warnings : list string;
  chunks : list string;
  duration : R;
  elapsed : Z;
  intervalActive : bool;
  recorderStopped : bool;
  progressText : list Z
}.

(** Line 1452, in milliseconds. *)
Definition targetDuration (st : State) : R :=
  JS.orR match element (getLayer st background) with
         | Some el => elDuration el
         | None => None
         end 5 * 1000.

(** Lines 1380-1453: the state and the session when [exportVideo] has
    started the recorder. *)
Definition exportVideo (isTypeSupported : string -> bool) (st : State)
  : State * Session :=
  let st1 :=
    mkState (layers st) (isPlaying st) true (Compositor.duration st)
            (resolution st) (canvas st) (selectedLayer st) (timers st) in
  let '(mime, ext, warned) := negotiate isTypeSupported in
  (st1, mkSession mime ext warned [] (targetDuration st) 0 true false []).

(** Line 1431. *)
Definition ondataavailable (data : string) (s : Session) : Session :=
  mkSession (mimeType s) (extension s) (warnings s) (chunks s ++ [data])
            (duration s)
            (elapsed s) (intervalActive s) (recorderStopped s) (progressText s).

(** Line 1456. *)
Definition progress (elapsed : Z) (duration : R) : Z :=
  Z.min (JS.Math_round ((IZR elapsed / duration) * 100)) 99.

(** Lines 1454-1465: one run of the interval callback, every 100 ms while
    the interval is not cleared. *)
Definition tick (s : Session) : Session :=
  if intervalActive s then
    let elapsed1 := (elapsed s + 100)%Z in
    let prog := progress elapsed1 (duration s) in
    let stop := JS.geb (IZR elapsed1) (duration s) in
    mkSession (mimeType s) (extension s) (warnings s) (chunks s) (duration s)
              elapsed1
              (negb stop) (if stop then true else recorderStopped s)
              (progressText s ++ [prog])
  else s.

Fixpoint ticks (n : nat) (s : Session) : Session :=
  match n with
  | O => s
  | S n' => tick (ticks n' s)
  end.

(** What happens to a session between the start of the recorder and its
    [stop] event: runs of the interval callback and chunks of data. *)
Inductive RecorderEvent :=
| Interval
| DataAvailable (data : string).

Definition step (s : Session) (e : RecorderEvent) : Session :=
  match e with
  | Interval => tick s
  | DataAvailable data => ondataavailable data s
  end.

Definition run (events : list RecorderEvent) (s : Session) : Session :=
  fold_left step events s.

(** The file offered for download. *)
Record Download := mkDownload {
  blobParts : list string;
  blobType : string;
  download : string
}.

(** Lines 1432-1449: the [stop] listener of the recorder, [now] being
    [Date.now()]. *)
Definition onstop (now : Z) (s : Session) (st : State) : State * Download :=
  let blob_parts := chunks s in
  let blob_type := mimeType s in
  let name :=
    String.append "composite_export_"
      (String.append (JS.showZ now) (String.append "." (extension s))) in
  (mkState (layers st) (isPlaying st) false (Compositor.duration st)
           (resolution st) (canvas st) (selectedLayer st) (timers st),
   mkDownload blob_parts blob_type name).

End ExportPipeline.

(** ** Frames of bytes *)

Module Frame.

(** An entry that a [Uint8ClampedArray] can hold. *)
Definition isByte (v : Z) : Prop := (0 <= v <= 255)%Z.

End Frame.

(** ** The time readout ([updateTimeline] and [formatTime], lines 1363-1377) *)

Module Timeline.

Import Compositor.
Local Open Scope R_scope.

(** The integer part of a number, towards 0. *)
Definition trunc (v : R) : Z := if Rlt_dec v 0 then Zceil v else Zfloor v.

(** [v % w] on numbers, for [w <> 0]: the remainder has the sign of [v]. *)
Definition rem (v w : R) : R := v - w * IZR (trunc (v / w)).

(** [s.padStart(2, '0')]. *)
Definition padStart2 (s : string) : string :=
  match String.length s with
  | O => "00"
  | S O => String.append "0" s
  | _ => s
  end.

(** Lines 1373-1377; [None] is NaN, whose floor prints as [NaN]. *)
Definition formatTime (seconds : option R) : string :=
  match seconds with
  | None => "NaN:NaN"
  | Some seconds =>
      let m := Zfloor (seconds / 60) in
      let s := Zfloor (rem seconds 60) in
      String.append (padStart2 (JS.showZ m))
        (String.append ":" (padStart2 (JS.showZ s)))
  end.

(** Lines 1363-1371, [currentTime] being [video.currentTime]: the number put
    in the width of the progress bar ([None] when it is not a real number: a
    NaN duration, or a quotient by 0) and the text of the time display.  The
    outer [None] is the early return of line 1364. *)
Definition updateTimeline (st : State) (currentTime : R)
  : option (option R * string) :=
  let bg := getLayer st background in
  match element bg with
  | None => None
  | Some el =>
      if isVideoLayer (type bg) then
        let progress :=
          match elDuration el with
          | Some d =>
              if Req_dec_T d 0 then None else Some (currentTime / d * 100)
          | None => None
          end in
        let current := formatTime (Some currentTime) in
        let total := formatTime (elDuration el) in
        Some (progress, String.append current (String.append " / " total))
      else None
  end.

End Timeline.

(** ** Dragging a layer (lines 1077-1102) *)

Module Pointer.

Import Compositor.
Local Open Scope R_scope.

(** The variables [isDragging], [lastX] and [lastY] that the three mouse
    listeners share.  [lastX] and [lastY] are unassigned until the first
    [mousedown] and are read only while [isDragging] is true. *)
Record Drag := mkDrag {
  isDragging : bool;
  lastX : R;
  lastY : R
}.

Definition noDrag : Drag := mkDrag false 0 0.

(** A mouse event with its [clientX] and [clientY]; a [mousemove] also
    carries the width and height of [canvas.getBoundingClientRect()]. *)
Inductive MouseEvent :=
| mousedown (clientX clientY : R)
| mousemove (clientX clientY : R) (rectWidth rectHeight : R)
| mouseup.

(** Lines 1079-1102. *)
Definition onMouse (sd : State * Drag) (e : MouseEvent) : State * Drag :=
  let '(st, dr) := sd in
  match e with
  | mousedown cx cy =>
      match element (getLayer st (selectedLayer st)) with
      | None => (st, dr)
      | Some _ => (st, mkDrag true cx cy)
      end
  | mousemove cx cy rw rh =>
      if negb (isDragging dr) then (st, dr)
      else
        let dx := cx - lastX dr in
        let dy := cy - lastY dr in
        let scaleX := IZR (fst (canvas st)) / rw in
        let scaleY := IZR (snd (canvas st)) / rh in
        (updLayer (selectedLayer st)
           (fun l => set_y (y l + dy * scaleY) (set_x (x l + dx * scaleX) l)) st,
         mkDrag (isDragging dr) cx cy)
  | mouseup => (st, mkDrag false (lastX dr) (lastY dr))
  end.

Definition runMouse (events : list MouseEvent) (sd : State * Drag)
  : State * Drag :=
  fold_left onMouse events sd.

End Pointer.

(** ** Sequences of handler calls *)

Module Session.

Import Compositor.
Local Open Scope R_scope.

(** Lines 1023-1028: a click on the control group of the layer [k]. *)
Definition onSelectLayer (k : LayerKey) (st : State) : State :=
  mkState (layers st) (isPlaying st) (isExporting st) (duration st)
          (resolution st) (canvas st) k (timers st).

(** One call of a handler that changes the compositor's state. *)
Inductive Action :=
| SelectLayer (k : LayerKey)
| SharedInput (c : SharedControl) (v : R)
| ChromaToggle (checked : bool)
| ChromaColor (value : string)
| ChromaTolerance (v : R)
| ResolutionChange (w h : Z)
| Center
| Fit (byHeight : bool)
| Upload (file : option File) (layerKey : LayerKey) (ev : LoadEvent)
| PosterTimer (drawn : bool)
| Mouse (e : Pointer.MouseEvent)
| ExportStart (isTypeSupported : string -> bool)
| ExportStop (now : Z) (s : ExportPipeline.Session).

(** The state and the drag variables after one action. *)
Definition act (sd : State * Pointer.Drag) (a : Action) : State * Pointer.Drag :=
  let '(st, dr) := sd in
  match a with
  | SelectLayer k => (onSelectLayer k st, dr)
  | SharedInput c v => (onSharedInput c v st, dr)
  | ChromaToggle b => (onChromaToggle b st, dr)
  | ChromaColor value => (onChromaColor value st, dr)
  | ChromaTolerance v => (onChromaTolerance v st, dr)
  | ResolutionChange w h => (onResolutionChange w h st, dr)
  | Center => (onCenter st, dr)
  | Fit byHeight => (fitLayer byHeight st, dr)
  | Upload file layerKey ev => (handleUpload file layerKey ev st, dr)
  | PosterTimer drawn => (runTimer drawn st, dr)
  | Mouse e => Pointer.onMouse (st, dr) e
  | ExportStart sup => (fst (ExportPipeline.exportVideo sup st), dr)
  | ExportStop now s => (fst (ExportPipeline.onstop now s st), dr)
  end.

Definition runActions (actions : list Action) (sd : State * Pointer.Drag)
  : State * Pointer.Drag :=
  fold_left act actions sd.

(** A layer whose kind names its element (a placeholder being the object of
    1280 x 720), and whose cached poster, if any, is a canvas. *)
Definition kindMatches (l : Layer) : bool :=
  match type l, element l with
  | None, None => true
  | Some video, Some (VideoElement _ _ _) => true
  | Some image, Some (ImageElement _ _) => true
  | Some placeholder, Some (PlaceholderObject w h _) =>
      (w =? 1280)%Z && (h =? 720)%Z
  | _, _ => false
  end
  && match posterFrame l with
     | None | Some (CanvasElement _ _) => true
     | _ => false
     end.

Definition isVideoElement (el : Element) : bool :=
  match el with VideoElement _ _ _ => true | _ => false end.

(** The three layers are consistent, the canvas has the size of the
    resolution, and every waiting poster capture holds a video element. *)
Definition consistent (st : State) : bool :=
  kindMatches (getLayer st background)
  && kindMatches (getLayer st character)
  && kindMatches (getLayer st overlay)
  && (fst (canvas st) =? fst (resolution st))%Z
  && (snd (canvas st) =? snd (resolution st))%Z
  && forallb (fun t => isVideoElement (task_el t)) (timers st).

End Session.

(** * Properties *)

(** ** The primitives *)

Section Primitives.

Local Open Scope R_scope.

Lemma ltb_true (x y : R) : JS.ltb x y = true <-> x < y.
Proof. unfold JS.ltb. destruct (Rlt_dec x y); split; intros; try easy. Qed.

Lemma ltb_false (x y : R) : JS.ltb x y = false <-> y <= x.
Proof.
  unfold JS.ltb. destruct (Rlt_dec x y); split; intros; try easy; lra.
Qed.

Lemma geb_true (x y : R) : JS.geb x y = true <-> y <= x.
Proof. unfold JS.geb. destruct (Rle_dec y x); split; intros; try easy. Qed.

Lemma geb_false (x y : R) : JS.geb x y = false <-> x < y.
Proof.
  unfold JS.geb. destruct (Rle_dec y x); split; intros; try easy; lra.
Qed.

(** The stored byte is the argument itself when it is a byte. *)
Lemma toUint8Clamp_IZR (k : Z) :
  (0 <= k <= 255)%Z -> JS.toUint8Clamp (IZR k) = k.
Proof.
  intros [H0 H255]. unfold JS.toUint8Clamp.
  destruct (Rle_dec (IZR k) 0) as [Hle | Hgt].
  - apply le_IZR in Hle. lia.
  - destruct (Rle_dec 255 (IZR k)) as [Hle | Hlt].
    + apply le_IZR in Hle. lia.
    + rewrite ZfloorZ.
      destruct (Rlt_dec (IZR k + 1 / 2) (IZR k)); [lra |].
      destruct (Rlt_dec (IZR k) (IZR k + 1 / 2)); [reflexivity | lra].
Qed.

Lemma toUint8Clamp_range (v : R) : (0 <= JS.toUint8Clamp v <= 255)%Z.
Proof.
  unfold JS.toUint8Clamp.
  destruct (Rle_dec v 0) as [|Hpos]; [lia |].
  destruct (Rle_dec 255 v) as [|Hlt]; [lia |].
  pose proof (Zfloor_bound v) as [Hlo Hhi].
  assert (Hf0 : (0 <= Zfloor v)%Z).
  { apply Zfloor_lub. simpl. lra. }
  assert (Hf255 : (Zfloor v < 255)%Z).
  { apply lt_IZR. lra. }
  destruct (Rlt_dec (IZR (Zfloor v) + 1 / 2) v); [lia |].
  destruct (Rlt_dec v (IZR (Zfloor v) + 1 / 2)); [lia |].
  destruct (Z.even (Zfloor v)); lia.
Qed.

(** Between the two clamps the stored byte is a nearest integer. *)
Lemma toUint8Clamp_near (v : R) :
  0 <= v <= 255 -> - (1 / 2) <= IZR (JS.toUint8Clamp v) - v <= 1 / 2.
Proof.
  intros [H0 H255]. unfold JS.toUint8Clamp.
  destruct (Rle_dec v 0) as [Hle | Hpos]; [lra |].
  destruct (Rle_dec 255 v) as [Hge | Hlt]; [lra |].
  pose proof (Zfloor_bound v) as [Hlo Hhi].
  destruct (Rlt_dec (IZR (Zfloor v) + 1 / 2) v).
  { rewrite plus_IZR. lra. }
  destruct (Rlt_dec v (IZR (Zfloor v) + 1 / 2)); [lra |].
  destruct (Z.even (Zfloor v)); [| rewrite plus_IZR]; lra.
Qed.

(** A number strictly closer to the byte [k] than to its neighbours is
    stored as [k]. *)
Lemma toUint8Clamp_eq (k : Z) (v : R) :
  (0 <= k <= 255)%Z -> IZR k - 1 / 2 < v < IZR k + 1 / 2 ->
  JS.toUint8Clamp v = k.
Proof.
  intros [Hk0 Hk255] [Hlo Hhi].
  apply IZR_le in Hk0, Hk255.
  pose proof (toUint8Clamp_range v) as [Hr0 Hr255].
  destruct (Rle_dec v 0) as [Hle | Hpos].
  { unfold JS.toUint8Clamp. destruct (Rle_dec v 0); [| contradiction].
    apply eq_IZR. destruct (Z.eq_dec k 0) as [-> | Hne]; [reflexivity |].
    assert (1 <= IZR k) by (apply (IZR_le 1); apply le_IZR in Hk0; lia).
    lra. }
  destruct (Rle_dec 255 v) as [Hge | Hlt].
  { unfold JS.toUint8Clamp. destruct (Rle_dec v 0); [contradiction |].
    destruct (Rle_dec 255 v); [| contradiction].
    destruct (Z.eq_dec k 255) as [-> | Hne]; [reflexivity |].
    assert (IZR k <= 254) by (apply (IZR_le _ 254); apply le_IZR in Hk255; lia).
    lra. }
  pose proof (toUint8Clamp_near (v := v)) as Hnear.
  assert (Hv : 0 <= v <= 255) by lra.
  specialize (Hnear Hv).
  destruct (Z_lt_le_dec (JS.toUint8Clamp v) k) as [Hl | Hg].
  - assert (IZR (JS.toUint8Clamp v) <= IZR k - 1).
    { rewrite <- minus_IZR. apply IZR_le. lia. }
    lra.
  - destruct (Z.eq_dec (JS.toUint8Clamp v) k) as [|Hne]; [assumption |].
    assert (IZR k + 1 <= IZR (JS.toUint8Clamp v)).
    { rewrite <- plus_IZR. apply IZR_le. lia. }
    lra.
Qed.



End Primitives.

(** ** The chroma-key engine *)

Section ChromaKeyProperties.

Import ChromaKey.
Local Open Scope R_scope.

Lemma pixel_cons4 (r g b a : Z) (rest : list Z) (k : nat) :
  pixel (r :: g :: b :: a :: rest) (S k) = pixel rest k.
Proof.
  unfold pixel.
  replace (4 * S k)%nat with (S (S (S (S (4 * k))))) by lia.
  reflexivity.
Qed.

Lemma pixel_short (data : list Z) (k : nat) :
  (List.length data < 4)%nat -> pixel data k = None.
Proof.
  intros Hlen. unfold pixel.
  assert (Hnone : nth_error data (4 * k + 3) = None).
  { apply nth_error_None. lia. }
  rewrite Hnone.
  destruct (nth_error data (4 * k)), (nth_error data (4 * k + 1)),
    (nth_error data (4 * k + 2)); reflexivity.
Qed.

Lemma keyLoop_cons4 (target : option Z * option Z * option Z) (tolerance : R)
      (r g b a : Z) (rest : list Z) :
  keyLoop target tolerance (r :: g :: b :: a :: rest)
  = r :: g :: b :: keyAlpha (diff r g b target) tolerance a
      :: keyLoop target tolerance rest.
Proof. reflexivity. Qed.

(** The loop visits every complete pixel and rewrites its alpha only. *)
Lemma pixel_keyLoop (target : option Z * option Z * option Z) (tolerance : R) :
  forall (k : nat) (data : list Z) (r g b a : Z),
    pixel data k = Some (r, g, b, a) ->
    pixel (keyLoop target tolerance data) k
    = Some (r, g, b, keyAlpha (diff r g b target) tolerance a).
Proof.
  induction k as [|k IH]; intros data r g b a Hpix.
  - destruct data as [|r0 [|g0 [|b0 [|a0 rest]]]];
      try (rewrite pixel_short in Hpix by (simpl; lia); discriminate).
    unfold pixel in Hpix. simpl in Hpix. inversion Hpix; subst.
    reflexivity.
  - destruct data as [|r0 [|g0 [|b0 [|a0 rest]]]];
      try (rewrite pixel_short in Hpix by (simpl; lia); discriminate).
    rewrite pixel_cons4 in Hpix.
    change (keyLoop target tolerance (r0 :: g0 :: b0 :: a0 :: rest))
      with (r0 :: g0 :: b0 :: keyAlpha (diff r0 g0 b0 target) tolerance a0
              :: keyLoop target tolerance rest).
    rewrite pixel_cons4. apply IH. assumption.
Qed.



Lemma keyAlpha_below (d tolerance : R) (a : Z) :
  d < tolerance -> keyAlpha (Some d) tolerance a = 0%Z.
Proof.
  intros H. unfold keyAlpha. apply ltb_true in H. rewrite H. reflexivity.
Qed.

Lemma keyAlpha_band (d tolerance : R) (a : Z) :
  tolerance <= d < tolerance + 0.05 ->
  keyAlpha (Some d) tolerance a = JS.toUint8Clamp (feather d tolerance).
Proof.
  intros [Hlo Hhi]. unfold keyAlpha.
  apply ltb_false in Hlo. apply ltb_true in Hhi. rewrite Hlo, Hhi.
  reflexivity.
Qed.

Lemma keyAlpha_above (d tolerance : R) (a : Z) :
  tolerance + 0.05 <= d -> keyAlpha (Some d) tolerance a = a.
Proof.
  intros H. unfold keyAlpha.
  assert (Hlo : tolerance <= d) by lra.
  apply ltb_false in Hlo. apply ltb_false in H. rewrite Hlo, H.
  reflexivity.
Qed.




(** *** The colour strings *)

(** A hexadecimal digit has a value below 16. *)
Lemma hexDigit_range (c : ascii) (d : Z) :
  JS.hexDigit c = Some d -> (0 <= d <= 15)%Z.
Proof.
  destruct c as [[] [] [] [] [] [] [] []]; intros H; vm_compute in H;
    try discriminate; inversion H; lia.
Qed.

(** [parseInt] of two hexadecimal digits is their value in base 16. *)
Lemma parseInt16_two_digits (c1 c2 : ascii) (d1 d2 : Z) :
  JS.hexDigit c1 = Some d1 -> JS.hexDigit c2 = Some d2 ->
  JS.parseInt16 (String c1 (String c2 EmptyString)) = Some (16 * d1 + d2)%Z.
Proof.
  intros H1 H2.
  destruct c1 as [[] [] [] [] [] [] [] []]; vm_compute in H1;
    try discriminate; inversion H1; subst d1; clear H1;
    destruct c2 as [[] [] [] [] [] [] [] []]; vm_compute in H2;
    try discriminate; inversion H2; subst d2; reflexivity.
Qed.

(** X24: every colour string [#rrggbb] of six hexadecimal digits, in upper
    or lower case, has three numeric channels, each the byte 16 x first digit
    + second digit. *)
Lemma parseTarget_rrggbb (c1 c2 c3 c4 c5 c6 : ascii) (d1 d2 d3 d4 d5 d6 : Z) :
  JS.hexDigit c1 = Some d1 -> JS.hexDigit c2 = Some d2 ->
  JS.hexDigit c3 = Some d3 -> JS.hexDigit c4 = Some d4 ->
  JS.hexDigit c5 = Some d5 -> JS.hexDigit c6 = Some d6 ->
  let hex :=
    String "#" (String c1 (String c2 (String c3 (String c4 (String c5
      (String c6 EmptyString)))))) in
  parseTarget hex
  = (Some (16 * d1 + d2)%Z, Some (16 * d3 + d4)%Z, Some (16 * d5 + d6)%Z)
  /\ (0 <= 16 * d1 + d2 <= 255)%Z
  /\ (0 <= 16 * d3 + d4 <= 255)%Z
  /\ (0 <= 16 * d5 + d6 <= 255)%Z.
Proof.
  intros H1 H2 H3 H4 H5 H6 hex. subst hex. unfold parseTarget.
  change (JS.slice 1 3 (String "#" (String c1 (String c2 (String c3
            (String c4 (String c5 (String c6 EmptyString))))))))
    with (String c1 (String c2 EmptyString)).
  change (JS.slice 3 5 (String "#" (String c1 (String c2 (String c3
            (String c4 (String c5 (String c6 EmptyString))))))))
    with (String c3 (String c4 EmptyString)).
  change (JS.slice 5 7 (String "#" (String c1 (String c2 (String c3
            (String c4 (String c5 (String c6 EmptyString))))))))
    with (String c5 (String c6 EmptyString)).
  rewrite (parseInt16_two_digits c1 c2 H1 H2),
    (parseInt16_two_digits c3 c4 H3 H4), (parseInt16_two_digits c5 c6 H5 H6).
  pose proof (hexDigit_range c1 H1). pose proof (hexDigit_range c2 H2).
  pose proof (hexDigit_range c3 H3). pose proof (hexDigit_range c4 H4).
  pose proof (hexDigit_range c5 H5). pose proof (hexDigit_range c6 H6).
  repeat split; lia.
Qed.

End ChromaKeyProperties.

Section ChromaKeyClaims.

Import ChromaKey.
Local Open Scope R_scope.

Lemma applyChromaKey_length (data : list Z) (targetHex : string) (tolerance : R) :
  List.length (applyChromaKey data targetHex tolerance) = List.length data.
Proof.
  unfold applyChromaKey. generalize (parseTarget targetHex). intros target.
  assert (H : forall n (l : list Z), (List.length l <= n)%nat ->
                List.length (keyLoop target tolerance l) = List.length l).
  { induction n as [|n IH]; intros l Hl.
    - destruct l; [reflexivity | simpl in Hl; lia].
    - destruct l as [|r [|g [|b [|a rest]]]]; try reflexivity.
      simpl. do 4 f_equal. apply IH. simpl in Hl. lia. }
  apply (H (List.length data)). lia.
Qed.








(** A pixel of exactly the target colour becomes transparent for every
    positive tolerance. *)
Lemma keyAlpha_target_colour (r g b a : Z) (tolerance : R) :
  0 < tolerance ->
  keyAlpha (diff r g b (Some r, Some g, Some b)) tolerance a = 0%Z.
Proof.
  intros Htol. unfold diff. apply keyAlpha_below. unfold distance.
  replace ((IZR r - IZR r) ^ 2 + (IZR g - IZR g) ^ 2 + (IZR b - IZR b) ^ 2)
    with 0 by ring.
  rewrite sqrt_0. lra.
Qed.

(** Keyed on pure green with tolerance 0.1, a pure green pixel becomes
    transparent and a pure red pixel stays opaque. *)
Example green_keyed_red_kept :
  applyChromaKey [0; 255; 0; 255; 255; 0; 0; 255]%Z "#00ff00" 0.1
  = [0; 255; 0; 0; 255; 0; 0; 255]%Z.
Proof.
  unfold applyChromaKey.
  change (parseTarget "#00ff00") with (Some 0%Z, Some 255%Z, Some 0%Z).
  rewrite !keyLoop_cons4.
  rewrite (keyAlpha_target_colour 0 255 0 255) by lra.
  do 7 f_equal. unfold diff. simpl keyLoop. f_equal.
  apply keyAlpha_above. unfold distance.
  replace ((255 - 0) ^ 2 + (0 - 255) ^ 2 + (0 - 0) ^ 2) with 130050 by lra.
  assert (H : 360 < sqrt 130050).
  { rewrite <- (sqrt_square 360) at 1 by lra. apply sqrt_lt_1_alt. lra. }
  apply Rmult_le_reg_r with 441.67; [lra |].
  unfold Rdiv. rewrite Rmult_assoc, Rinv_l by lra. lra.
Qed.

End ChromaKeyClaims.

(** ** The layer model and the compositor *)

Section CompositorLemmas.

Import Compositor.
Local Open Scope R_scope.

Lemma getLayer_updLayer_same (k : LayerKey) (f : Layer -> Layer) (st : State) :
  getLayer (updLayer k f st) k = f (getLayer st k).
Proof. destruct k; reflexivity. Qed.

Lemma getLayer_updLayer_other (k k' : LayerKey) (f : Layer -> Layer) (st : State) :
  k <> k' -> getLayer (updLayer k f st) k' = getLayer st k'.
Proof. destruct k, k'; intros H; try reflexivity; contradiction. Qed.

Lemma getLayer_forEachLayer (k : LayerKey) (f : Layer -> Layer) (st : State) :
  getLayer (forEachLayer f st) k = f (getLayer st k).
Proof. destruct k; reflexivity. Qed.

(** The keys computed at line 1035 from the four identifiers. *)
Lemma control_keys :
  map (fun c => JS.toLowerCase (JS.replace "pos" "" (controlId c)))
      [posX; posY; scaleInput; opacityInput]
  = ["x"; "y"; "scale"; "opacity"]%string.
Proof. reflexivity. Qed.

(** What [setupElement] leaves alone: the canvas, the exporting flag and
    the layers other than [layerKey]. *)
Lemma setupElement_frame (st : State) (layerKey : LayerKey) (ty : LayerType)
      (el : Element) (isError : bool) :
  canvas (setupElement layerKey ty el isError st) = canvas st
  /\ isExporting (setupElement layerKey ty el isError st) = isExporting st
  /\ (forall k : LayerKey,
        k <> layerKey ->
        getLayer (setupElement layerKey ty el isError st) k = getLayer st k).
Proof.
  unfold setupElement.
  destruct (isBackground layerKey || negb isError);
    (split; [destruct layerKey; reflexivity |
             split; [destruct layerKey; reflexivity |]]);
    intros k Hk; destruct k, layerKey; try reflexivity; contradiction.
Qed.

(** The element and the kind that [setupElement] stores. *)
Lemma setupElement_element (st : State) (layerKey : LayerKey) (ty : LayerType)
      (el : Element) (isError : bool) :
  element (getLayer (setupElement layerKey ty el isError st) layerKey) = Some el
  /\ type (getLayer (setupElement layerKey ty el isError st) layerKey)
     = Some (if isError then placeholder else ty).
Proof.
  unfold setupElement.
  destruct (isBackground layerKey || negb isError).
  - unfold autoFit. cbv zeta. rewrite getLayer_updLayer_same.
    match goal with
    | |- context [if ?c then _ else _] => destruct c
    end;
      [| match goal with
         | |- context [if ?c then set_scale _ _ else _] => destruct c
         end];
      split; destruct layerKey; reflexivity.
  - split; destruct layerKey; reflexivity.
Qed.

(** [setupElement] does not assign [posterFrame]. *)
Lemma setupElement_posterFrame (st : State) (layerKey : LayerKey)
      (ty : LayerType) (el : Element) (isError : bool) :
  posterFrame (getLayer (setupElement layerKey ty el isError st) layerKey)
  = posterFrame (getLayer st layerKey).
Proof.
  unfold setupElement.
  destruct (isBackground layerKey || negb isError).
  - unfold autoFit. cbv zeta. rewrite getLayer_updLayer_same.
    match goal with
    | |- context [if ?c then _ else _] => destruct c
    end;
      [| match goal with
         | |- context [if ?c then set_scale _ _ else _] => destruct c
         end];
      destruct layerKey; reflexivity.
  - destruct layerKey; reflexivity.
Qed.

Lemma isVideo_uploadType (file : File) :
  isVideo file = true -> uploadType file = video.
Proof. unfold uploadType. intros ->. reflexivity. Qed.


(** The rectangle that [drawLayer] computes for a layer with an element:
    its size is the natural size of the source times the scale, and its
    origin is the centre of the canvas, moved by the position, minus half of
    that size.  The source is the layer's element or its cached poster
    frame; its natural size is [width] x [height] for a placeholder and
    [videoWidth || width] x [videoHeight || height] otherwise. *)
Lemma drawLayer_rect (st : State) (key : LayerKey) (el0 : Element) :
  element (getLayer st key) = Some el0 ->
  exists (cmd : DrawCmd) (src : Element) (w h : Z),
    drawLayer st key = Some cmd
    /\ (src = el0 \/ posterFrame (getLayer st key) = Some src)
    /\ ((w, h) = (width src, height src)
        \/ (w, h) = (JS.orZ (videoWidth src) (width src),
                     JS.orZ (videoHeight src) (height src)))
    /\ snd (rect cmd)
       = (IZR w * scale (getLayer st key), IZR h * scale (getLayer st key))
    /\ fst (rect cmd)
       = (IZR (fst (canvas st)) / 2 + x (getLayer st key)
          - IZR w * scale (getLayer st key) / 2,
          IZR (snd (canvas st)) / 2 + y (getLayer st key)
          - IZR h * scale (getLayer st key) / 2).
Proof.
  intros Hel. unfold drawLayer. rewrite Hel.
  destruct (canvas st) as [cw ch].
  destruct (isPlaceholderType (type (getLayer st key))).
  - eexists. exists el0, (width el0), (height el0).
    repeat split; left; reflexivity.
  - assert (Hsrc : exists src : Element,
               (src = el0 \/ posterFrame (getLayer st key) = Some src)
               /\ match posterFrame (getLayer st key) with
                  | Some poster =>
                      if isVideoLayer (type (getLayer st key))
                         && negb (isExporting st) && negb (isBackground key)
                      then poster else el0
                  | None => el0
                  end = src).
    { destruct (posterFrame (getLayer st key)) as [poster |].
      - destruct (isVideoLayer (type (getLayer st key))
                  && negb (isExporting st) && negb (isBackground key)).
        + exists poster. split; [right |]; reflexivity.
        + exists el0. split; [left |]; reflexivity.
      - exists el0. split; [left |]; reflexivity. }
    destruct Hsrc as [src [Hor ->]].
    destruct (chromaKey (getLayer st key));
      eexists; exists src, (JS.orZ (videoWidth src) (width src)),
        (JS.orZ (videoHeight src) (height src));
      (split; [reflexivity |
               split; [exact Hor | split; [right; reflexivity | split; reflexivity]]]).
Qed.

(** In the preview, a video layer other than the background with a cached
    poster frame and no chroma key is drawn from the poster frame. *)
Lemma drawLayer_preview_poster (st : State) (key : LayerKey)
      (el poster : Element) :
  element (getLayer st key) = Some el ->
  type (getLayer st key) = Some video ->
  posterFrame (getLayer st key) = Some poster ->
  isExporting st = false ->
  isBackground key = false ->
  chromaKey (getLayer st key) = false ->
  exists dx dy sw sh : R,
    drawLayer st key
    = Some (DrawImage poster dx dy sw sh (opacity (getLayer st key))).
Proof.
  intros Hel Hty Hposter Hexp Hkey Hchroma.
  unfold drawLayer. rewrite Hel, Hty, Hposter, Hexp, Hkey, Hchroma.
  destruct (canvas st) as [cw ch]. simpl.
  do 4 eexists. reflexivity.
Qed.

(** The quick actions: fitting by height sets the scale to canvas height /
    source height, fitting by width to canvas width / source width, and both
    put the layer back at the centre. *)
Lemma fitLayer_scale (st : State) (byHeight : bool) (el : Element) :
  element (getLayer st (selectedLayer st)) = Some el ->
  let l' := getLayer (fitLayer byHeight st) (selectedLayer st) in
  x l' = 0 /\ y l' = 0
  /\ scale l'
     = if byHeight
       then IZR (snd (canvas st)) / IZR (JS.orZ (videoHeight el) (height el))
       else IZR (fst (canvas st)) / IZR (JS.orZ (videoWidth el) (width el)).
Proof.
  intros Hel l'. subst l'. unfold fitLayer. rewrite Hel.
  rewrite getLayer_updLayer_same. repeat split.
Qed.

End CompositorLemmas.

Section CompositorClaims.

Import Compositor.
Local Open Scope R_scope.

(** C2 (as amended): a field update through the setters stores the number
    read from the control as it is, with no rejection and no clamping: the
    scale, opacity, position and chroma-key tolerance of the selected layer
    become the new value whatever it is, and nothing else changes; the
    compositor then draws a layer that has a source with the size natural
    size x the stored scale. *)
Theorem setters_store_value_unchanged :
  forall (st : State) (v : R),
    let sel := selectedLayer st in
    onSharedInput scaleInput v st = updLayer sel (set_scale v) st
    /\ onSharedInput opacityInput v st = updLayer sel (set_opacity v) st
    /\ onSharedInput posX v st = updLayer sel (set_x v) st
    /\ onSharedInput posY v st = updLayer sel (set_y v) st
    /\ onChromaTolerance v st = updLayer sel (set_tolerance v) st
    /\ scale (getLayer (onSharedInput scaleInput v st) sel) = v
    /\ opacity (getLayer (onSharedInput opacityInput v st) sel) = v
    /\ tolerance (getLayer (onChromaTolerance v st) sel) = v
    /\ (forall el0 : Element,
          element (getLayer st sel) = Some el0 ->
          exists (cmd : DrawCmd) (w h : Z),
            drawLayer (onSharedInput scaleInput v st) sel = Some cmd
            /\ snd (rect cmd) = (IZR w * v, IZR h * v)).
Proof.
  intros st v sel.
  assert (Hs : onSharedInput scaleInput v st = updLayer sel (set_scale v) st)
    by reflexivity.
  assert (Ho : onSharedInput opacityInput v st = updLayer sel (set_opacity v) st)
    by reflexivity.
  assert (Hscale : scale (getLayer (onSharedInput scaleInput v st) sel) = v).
  { rewrite Hs, getLayer_updLayer_same. reflexivity. }
  repeat split; try reflexivity.
  - exact Hscale.
  - rewrite Ho, getLayer_updLayer_same. reflexivity.
  - unfold onChromaTolerance. fold sel. rewrite getLayer_updLayer_same.
    reflexivity.
  - intros el0 Hel.
    assert (Hel' : element (getLayer (onSharedInput scaleInput v st) sel)
                   = Some el0).
    { rewrite Hs, getLayer_updLayer_same. exact Hel. }
    destruct (drawLayer_rect _ _ Hel')
      as [cmd [src [w [h [Hcmd [_ [_ [Hsize _]]]]]]]].
    exists cmd, w, h. split; [exact Hcmd |].
    rewrite Hsize, Hscale. reflexivity.
Qed.

(** C2 as stated fails: after an image of 100 x 50 pixels is loaded into the
    selected layer, the inputs -1 for the scale, 2 for the opacity and 7 for
    the tolerance are stored as they are, and the compositor draws the layer
    with the negative size (-100, -50) after assigning 2 to the global
    alpha. *)
Lemma setters_accept_out_of_range :
  let st0 :=
    handleUpload (Some (mkFile "a.png" "image/png")) character (load 100 50)
                 initial in
  let st1 :=
    onChromaTolerance 7
      (onSharedInput opacityInput 2 (onSharedInput scaleInput (-1) st0)) in
  scale (getLayer st1 character) = -1
  /\ opacity (getLayer st1 character) = 2
  /\ tolerance (getLayer st1 character) = 7
  /\ exists (dx dy sw sh : R),
      drawLayer st1 character = Some (DrawImage (ImageElement 100 50) dx dy sw sh 2)
      /\ sw = -100 /\ sh = -50.
Proof.
  intros st0 st1.
  split; [reflexivity | split; [reflexivity | split; [reflexivity |]]].
  exists (1920 / 2 + 0 - 100 * -1 / 2), (1080 / 2 + 0 - 50 * -1 / 2),
    (100 * -1), (50 * -1).
  split; [reflexivity |].
  split; lra.
Qed.

(** C3 (as amended): replacing the source of a layer leaves the layer with
    the new element, its kind updated (placeholder after a decoding error,
    else the type of the file), positionX = 0, positionY = 0, and a scale
    that is 1 unless the automatic fit applies (the layer is the background
    or there was no error): a source higher than wide on a canvas wider than
    high gets canvas height / source height, a source wider than high on a
    canvas higher than wide gets canvas width / source width.  The other
    layers are left alone. *)
Theorem setupElement_replaces_source :
  forall (st : State) (layerKey : LayerKey) (ty : LayerType) (el : Element)
         (isError : bool),
    let st' := setupElement layerKey ty el isError st in
    let l' := getLayer st' layerKey in
    let elW := JS.orZ (videoWidth el) (width el) in
    let elH := JS.orZ (videoHeight el) (height el) in
    let cw := fst (canvas st) in
    let ch := snd (canvas st) in
    element l' = Some el
    /\ type l' = Some (if isError then placeholder else ty)
    /\ x l' = 0 /\ y l' = 0
    /\ scale l' =
         (if isBackground layerKey || negb isError then
            if (elH >? elW)%Z && (ch <? cw)%Z then IZR ch / IZR elH
            else if (elW >? elH)%Z && (cw <? ch)%Z then IZR cw / IZR elW
            else 1
          else 1)
    /\ (forall k : LayerKey, k <> layerKey -> getLayer st' k = getLayer st k).
Proof.
  intros st layerKey ty el isError st' l' elW elH cw ch.
  subst st' l'. unfold setupElement.
  destruct (isBackground layerKey || negb isError).
  - unfold autoFit. cbv zeta.
    change (canvas _) with (canvas st). fold elW elH cw ch.
    rewrite getLayer_updLayer_same.
    destruct ((elH >? elW)%Z && (ch <? cw)%Z);
      [| destruct ((elW >? elH)%Z && (cw <? ch)%Z)];
      (repeat split;
       [destruct layerKey; reflexivity ..
       | intros k Hk; destruct k, layerKey; try reflexivity; contradiction]).
  - repeat split;
      [destruct layerKey; reflexivity ..
      | intros k Hk; destruct k, layerKey; try reflexivity; contradiction].
Qed.

(** C3 as stated fails, on the scale and on the posterFrame.  A video of
    640 x 360 is loaded into the layer [character] and its poster frame is
    captured; then a video of 1080 x 1920 replaces it on the 1920 x 1080
    canvas.  Before the poster capture of the new video runs, the layer's
    scale is 1080 / 1920, not 1, the poster frame of the first video is still
    cached, and the preview draws that poster frame for the layer. *)
Lemma setupElement_keeps_poster_and_fits :
  let st1 :=
    handleUpload (Some (mkFile "wide.mp4" "video/mp4")) character
                 (loadedmetadata 640 360 (Some 10)) initial in
  let st2 := runTimer true st1 in
  let st3 :=
    handleUpload (Some (mkFile "tall.mp4" "video/mp4")) character
                 (loadedmetadata 1080 1920 (Some 4)) st2 in
  element (getLayer st3 character) = Some (VideoElement 1080 1920 (Some 4))
  /\ scale (getLayer st3 character) = 1080 / 1920
  /\ scale (getLayer st3 character) <> 1
  /\ posterFrame (getLayer st3 character) = Some (CanvasElement 640 360)
  /\ exists dx dy sw sh : R,
      drawLayer st3 character
      = Some (DrawImage (CanvasElement 640 360) dx dy sw sh
                (opacity (getLayer st3 character))).
Proof.
  intros st1 st2 st3.
  assert (Hs : scale (getLayer st3 character) = 1080 / 1920) by reflexivity.
  split; [reflexivity | split; [exact Hs | split; [| split; [reflexivity |]]]].
  - rewrite Hs. lra.
  - apply (@drawLayer_preview_poster st3 character
             (VideoElement 1080 1920 (Some 4)) (CanvasElement 640 360));
      reflexivity.
Qed.



(** C7: whatever the layers were, a change of the output resolution to
    w x h sets the position of every layer to (0, 0) and leaves its scale,
    opacity and every other field as they were; the canvas and the stored
    resolution get the new width and height, and the rest of the state is
    unchanged. *)
Theorem resolution_change_recenters :
  forall (st : State) (w h : Z) (k : LayerKey),
    let st' := onResolutionChange w h st in
    let l := getLayer st k in
    let l' := getLayer st' k in
    x l' = 0 /\ y l' = 0
    /\ scale l' = scale l /\ opacity l' = opacity l
    /\ element l' = element l /\ type l' = type l
    /\ chromaKey l' = chromaKey l /\ chromaColor l' = chromaColor l
    /\ tolerance l' = tolerance l /\ posterFrame l' = posterFrame l
    /\ canvas st' = (w, h) /\ resolution st' = (w, h)
    /\ isPlaying st' = isPlaying st /\ isExporting st' = isExporting st
    /\ duration st' = duration st /\ selectedLayer st' = selectedLayer st
    /\ timers st' = timers st.
Proof.
  intros st w h k st' l l'. subst st' l l'.
  unfold onResolutionChange. rewrite getLayer_forEachLayer.
  repeat split; destruct k; reflexivity.
Qed.

(** C9: when the video element of a video file reports an error, the upload
    handler stores in the layer the placeholder object with the file's name
    and the size 1280 x 720 and sets the layer's kind to placeholder; the
    compositor then paints that layer as a rectangle of 1280 x 720 times the
    scale labelled with the file's name, and paints the other layers as
    before.  Both functions are total: nothing is thrown. *)
Theorem video_error_gives_placeholder :
  forall (st : State) (file : File) (layerKey : LayerKey),
    isVideo file = true ->
    let st' := handleUpload (Some file) layerKey error st in
    let l' := getLayer st' layerKey in
    element l' = Some (PlaceholderObject 1280 720 (fileName file))
    /\ type l' = Some placeholder
    /\ (exists px py : R,
          drawLayer st' layerKey
          = Some (PlaceholderBox px py (1280 * scale l') (720 * scale l')
                    (opacity l' * 0.5)
                    (String.append "Unsupported: " (fileName file))))
    /\ (forall k : LayerKey, k <> layerKey -> drawLayer st' k = drawLayer st k)
    /\ (exists cmd : DrawCmd,
          drawLayer st' layerKey = Some cmd /\ In cmd (draw st')).
Proof.
  intros st file layerKey Hvideo st' l'.
  assert (Hst : st' = setupElement layerKey video
                        (PlaceholderObject 1280 720 (fileName file)) true st).
  { subst st'. unfold handleUpload. rewrite (isVideo_uploadType file Hvideo).
    reflexivity. }
  destruct (setupElement_element st layerKey video
              (PlaceholderObject 1280 720 (fileName file)) true) as [Hel Hty].
  destruct (setupElement_frame st layerKey video
              (PlaceholderObject 1280 720 (fileName file)) true)
    as [Hcanvas [Hexp Hother]].
  rewrite <- Hst in Hel, Hty, Hcanvas, Hexp, Hother. fold l' in Hel, Hty.
  assert (Hdraw : exists px py : R,
             drawLayer st' layerKey
             = Some (PlaceholderBox px py (1280 * scale l') (720 * scale l')
                       (opacity l' * 0.5)
                       (String.append "Unsupported: " (fileName file)))).
  { unfold drawLayer. fold l'. rewrite Hel, Hty.
    destruct (canvas st') as [cw ch]. simpl isPlaceholderType. cbv iota.
    do 2 eexists. reflexivity. }
  split; [exact Hel | split; [exact Hty | split; [exact Hdraw | split]]].
  - intros k Hk. unfold drawLayer.
    rewrite (Hother k Hk), Hcanvas, Hexp. reflexivity.
  - destruct Hdraw as [px [py Hdraw]].
    eexists. split; [exact Hdraw |].
    unfold draw. destruct layerKey; rewrite Hdraw;
      repeat (apply in_or_app; first [left; left; reflexivity | right]);
      try (left; reflexivity).
Qed.

(** A ProRes [.mov] file dropped on the background: the layer becomes the
    placeholder of 1280 x 720 named after the file. *)
Lemma video_error_gives_placeholder_witness :
  let st' :=
    handleUpload (Some (mkFile "take1.MOV" "")) background error initial in
  element (getLayer st' background)
  = Some (PlaceholderObject 1280 720 "take1.MOV")
  /\ type (getLayer st' background) = Some placeholder.
Proof.
  intros st'.
  destruct (@video_error_gives_placeholder initial (mkFile "take1.MOV" "")
              background eq_refl) as [Hel [Hty _]].
  split; [exact Hel | exact Hty].
Defined.

End CompositorClaims.

(** ** The export pipeline *)

Section ExportClaims.

Import Compositor ExportPipeline.
Local Open Scope R_scope.




Example export_name_webm :
  download (snd (onstop 1700000000123
                   (snd (exportVideo (fun _ => false) initial)) initial))
  = "composite_export_1700000000123.webm"%string.
Proof. reflexivity. Qed.



Lemma tick_active (s : Session) :
  intervalActive s = true ->
  tick s
  = mkSession (mimeType s) (extension s) (warnings s) (chunks s) (duration s)
      (elapsed s + 100)
      (negb (JS.geb (IZR (elapsed s + 100)) (duration s)))
      (if JS.geb (IZR (elapsed s + 100)) (duration s) then true
       else recorderStopped s)
      (progressText s ++ [progress (elapsed s + 100) (duration s)]).
Proof. intros H. unfold tick. rewrite H. reflexivity. Qed.

Lemma tick_inactive (s : Session) : intervalActive s = false -> tick s = s.
Proof. intros H. unfold tick. rewrite H. reflexivity. Qed.

(** The values written by the first [m] runs of the callback. *)
Lemma reports_snoc (D : R) (m : nat) :
  map (fun k => progress (100 * Z.of_nat k) D) (seq 1 (S m))
  = map (fun k => progress (100 * Z.of_nat k) D) (seq 1 m)
    ++ [progress (100 * Z.of_nat (S m)) D].
Proof. rewrite seq_S, map_app. reflexivity. Qed.

(** The state of a session after [n] periods of 100 ms: [m] runs of the
    callback have happened, all of them when the interval is still active,
    and every run but the last saw [elapsed < duration]. *)
Lemma ticks_invariant (s0 : Session) :
  elapsed s0 = 0%Z -> intervalActive s0 = true -> recorderStopped s0 = false ->
  progressText s0 = [] ->
  forall n : nat,
  exists m : nat,
    (m <= n)%nat
    /\ elapsed (ticks n s0) = (100 * Z.of_nat m)%Z
    /\ duration (ticks n s0) = duration s0
    /\ progressText (ticks n s0)
       = map (fun k => progress (100 * Z.of_nat k) (duration s0)) (seq 1 m)
    /\ (forall k : nat, (1 <= k < m)%nat -> IZR (100 * Z.of_nat k) < duration s0)
    /\ (intervalActive (ticks n s0) = true ->
        m = n /\ recorderStopped (ticks n s0) = false
        /\ (m <> 0%nat -> IZR (100 * Z.of_nat m) < duration s0))
    /\ (intervalActive (ticks n s0) = false ->
        recorderStopped (ticks n s0) = true
        /\ m <> 0%nat /\ duration s0 <= IZR (100 * Z.of_nat m)).
Proof.
  intros He Ha Hr Hp. induction n as [|n IH].
  - exists 0%nat. simpl. rewrite He, Ha, Hp, Hr.
    repeat split; try lia; try discriminate; try reflexivity.
  - destruct IH as [m [Hmn [Hel [Hd [Hpt [Hbefore [Hact Hinact]]]]]]].
    simpl ticks. destruct (intervalActive (ticks n s0)) eqn:Hactive.
    + destruct (Hact eq_refl) as [-> [Hns Hlast]].
      rewrite (tick_active _ Hactive). simpl. rewrite Hel, Hd, Hpt.
      replace (100 * Z.of_nat n + 100)%Z with (100 * Z.of_nat (S n))%Z by lia.
      exists (S n). split; [lia |]. split; [reflexivity |].
      split; [reflexivity |]. split; [symmetry; apply reports_snoc |].
      split.
      { intros k Hk. destruct (Nat.eq_dec k n) as [-> | Hne].
        - apply Hlast. lia.
        - apply Hbefore. lia. }
      destruct (JS.geb (IZR (100 * Z.of_nat (S n))) (duration s0)) eqn:Hstop.
      * simpl. split; [discriminate |]. intros _.
        split; [reflexivity |]. split; [lia |]. apply geb_true. exact Hstop.
      * simpl. split; [| discriminate]. intros _.
        split; [reflexivity |]. split; [exact Hns |]. intros _.
        apply geb_false. exact Hstop.
    + rewrite (tick_inactive _ Hactive). rewrite Hactive.
      exists m. split; [lia |].
      split; [exact Hel |]. split; [exact Hd |]. split; [exact Hpt |].
      split; [exact Hbefore |]. split; [discriminate | exact Hinact].
Qed.

Lemma exportVideo_session (isTypeSupported : string -> bool) (st : State) :
  let s0 := snd (exportVideo isTypeSupported st) in
  elapsed s0 = 0%Z /\ intervalActive s0 = true /\ recorderStopped s0 = false
  /\ progressText s0 = [] /\ duration s0 = targetDuration st.
Proof.
  unfold exportVideo. destruct (negotiate isTypeSupported) as [[mime ext] warned].
  simpl. repeat split.
Qed.


(** The recorder is stopped exactly when some run of the callback has seen
    [elapsed >= duration]. *)
Lemma stopped_iff (s0 : Session) (n : nat) :
  elapsed s0 = 0%Z -> intervalActive s0 = true -> recorderStopped s0 = false ->
  progressText s0 = [] ->
  recorderStopped (ticks n s0) = true <->
  exists k : nat, (1 <= k <= n)%nat /\ duration s0 <= IZR (100 * Z.of_nat k).
Proof.
  intros He Ha Hr Hp.
  destruct (ticks_invariant s0 He Ha Hr Hp n)
    as [m [Hmn [_ [_ [_ [Hbefore [Hact Hinact]]]]]]].
  destruct (intervalActive (ticks n s0)) eqn:Hactive.
  - destruct (Hact eq_refl) as [-> [Hns Hlast]]. rewrite Hns.
    split; [discriminate |]. intros [k [Hk HD]]. exfalso.
    assert (IZR (100 * Z.of_nat k) < duration s0).
    { destruct (Nat.eq_dec k n) as [-> | Hne];
        [apply Hlast; lia | apply Hbefore; lia]. }
    lra.
  - destruct (Hinact eq_refl) as [Hs [Hm HD]]. rewrite Hs.
    split; [| reflexivity]. intros _. exists m. split; [lia | exact HD].
Qed.


Lemma progress_eq (e : Z) (D : R) (k : Z) :
  IZR k - 1 / 2 <= IZR e / D * 100 < IZR k + 1 / 2 -> (k <= 99)%Z ->
  progress e D = k.
Proof.
  intros [Hlo Hhi] Hk. unfold progress, JS.Math_round.
  rewrite (Zfloor_eq k); [lia |]. lra.
Qed.


(** A background video of 0.3 seconds: three runs of the callback report 33,
    67 and 99, and the third one stops the recorder. *)
Example export_three_runs :
  let st :=
    handleUpload (Some (mkFile "short.webm" "video/webm")) background
                 (loadedmetadata 640 360 (Some 0.3)) initial in
  let s := ticks 3 (snd (exportVideo (fun _ => false) st)) in
  progressText s = [33; 67; 99]%Z
  /\ recorderStopped s = true /\ intervalActive s = false
  /\ extension s = "webm"%string.
Proof.
  intros st s. subst s.
  set (s0 := snd (exportVideo (fun _ => false) st)).
  assert (HD : targetDuration st = 0.3 * 1000).
  { unfold targetDuration. simpl. unfold JS.orR.
    destruct (Req_dec_T 0.3 0); [lra | reflexivity]. }
  assert (Hlt1 : JS.geb 100 (targetDuration st) = false).
  { rewrite HD. apply geb_false. lra. }
  assert (Hlt2 : JS.geb 200 (targetDuration st) = false).
  { rewrite HD. apply geb_false. lra. }
  assert (Hge3 : JS.geb 300 (targetDuration st) = true).
  { rewrite HD. apply geb_true. lra. }
  assert (P1 : progress 100 (targetDuration st) = 33%Z).
  { rewrite HD. apply progress_eq; [simpl; lra | lia]. }
  assert (P2 : progress 200 (targetDuration st) = 67%Z).
  { rewrite HD. apply progress_eq; [simpl; lra | lia]. }
  assert (P3 : progress 300 (targetDuration st) = 99%Z).
  { rewrite HD. unfold progress, JS.Math_round.
    rewrite (Zfloor_eq 100); [reflexivity |]. simpl. lra. }
  assert (H1 : ticks 1 s0
               = mkSession webmType "webm" (warnings s0) [] (targetDuration st) 100 true false
                   [33%Z]).
  { simpl ticks. rewrite tick_active by reflexivity. simpl.
    rewrite Hlt1, P1. reflexivity. }
  assert (H2 : ticks 2 s0
               = mkSession webmType "webm" (warnings s0) [] (targetDuration st) 200 true false
                   [33; 67]%Z).
  { change (ticks 2 s0) with (tick (ticks 1 s0)). rewrite H1.
    rewrite tick_active by reflexivity. simpl.
    rewrite Hlt2, P2. reflexivity. }
  assert (H3 : ticks 3 s0
               = mkSession webmType "webm" (warnings s0) [] (targetDuration st) 300 false true
                   [33; 67; 99]%Z).
  { change (ticks 3 s0) with (tick (ticks 2 s0)). rewrite H2.
    rewrite tick_active by reflexivity. simpl.
    rewrite Hge3, P3. reflexivity. }
  rewrite H3. repeat split.
Qed.

(** The stop condition does fire: after enough runs of the callback the
    recorder is stopped. *)
Lemma export_stops (isTypeSupported : string -> bool) (st : State) :
  exists n : nat,
    recorderStopped (ticks n (snd (exportVideo isTypeSupported st))) = true.
Proof.
  set (s0 := snd (exportVideo isTypeSupported st)).
  set (k := Z.to_nat (Z.max 1 (up (duration s0 / 100)))).
  exists k.
  destruct (exportVideo_session isTypeSupported st) as [He [Ha [Hr [Hp _]]]].
  apply (stopped_iff s0 k He Ha Hr Hp).
  exists k. split.
  - subst k. lia.
  - subst k. rewrite Z2Nat.id by lia. rewrite mult_IZR.
    pose proof (archimed (duration s0 / 100)) as [Hup _].
    assert (Hmax : IZR (up (duration s0 / 100))
                   <= IZR (Z.max 1 (up (duration s0 / 100)))).
    { apply IZR_le. lia. }
    fold s0. lra.
Qed.

End ExportClaims.

(** * Further properties of the code *)

(** ** The chroma-key loop on whole frames *)

Section ChromaKeyFrames.

Import ChromaKey Frame.
Local Open Scope R_scope.

(** Induction on a buffer four entries at a time. *)
Lemma list_ind4 (P : list Z -> Prop) :
  (forall l : list Z, (List.length l < 4)%nat -> P l) ->
  (forall (r g b a : Z) (rest : list Z), P rest -> P (r :: g :: b :: a :: rest)) ->
  forall l : list Z, P l.
Proof.
  intros Hshort Hstep l.
  assert (H : forall n (l : list Z), (List.length l <= n)%nat -> P l).
  { induction n as [|n IH]; intros l0 Hl.
    - apply Hshort. lia.
    - destruct l0 as [|r [|g [|b [|a rest]]]];
        try (apply Hshort; simpl; lia).
      apply Hstep, IH. simpl in Hl. lia. }
  apply (H (List.length l)). lia.
Qed.

Lemma keyLoop_short (target : option Z * option Z * option Z) (tolerance : R)
      (l : list Z) :
  (List.length l < 4)%nat -> keyLoop target tolerance l = l.
Proof.
  destruct l as [|r [|g [|b [|a rest]]]]; try reflexivity.
  simpl. lia.
Qed.

Lemma distance_nonneg (r g b rT gT bT : Z) : 0 <= distance r g b rT gT bT.
Proof.
  unfold distance. apply Rmult_le_pos; [apply sqrt_pos |].
  apply Rlt_le, Rinv_0_lt_compat. lra.
Qed.

(** The three outcomes of the two tests. *)
Lemma keyAlpha_cases (d : option R) (tolerance : R) (a : Z) :
  keyAlpha d tolerance a = a
  \/ keyAlpha d tolerance a = 0%Z
  \/ exists v : R, keyAlpha d tolerance a = JS.toUint8Clamp v.
Proof.
  unfold keyAlpha. destruct d as [d |]; [| left; reflexivity].
  destruct (JS.ltb d tolerance); [right; left; reflexivity |].
  destruct (JS.ltb d (tolerance + 0.05)); [| left; reflexivity].
  right; right. eexists. reflexivity.
Qed.

(** X1: the keyed frame has the length of the input frame and the same entry
    at every index that is not an alpha position (an index that is not 3
    modulo 4); only alpha entries are ever rewritten. *)
Theorem applyChromaKey_rewrites_alpha_only :
  forall (data : list Z) (targetHex : string) (tolerance : R),
    List.length (applyChromaKey data targetHex tolerance) = List.length data
    /\ forall i : nat,
        (i mod 4 <> 3)%nat ->
        nth_error (applyChromaKey data targetHex tolerance) i = nth_error data i.
Proof.
  intros data targetHex tolerance. unfold applyChromaKey.
  generalize (parseTarget targetHex). intros target.
  induction data as [l Hl | r g b a rest [IHlen IHnth]] using list_ind4.
  - rewrite keyLoop_short by exact Hl. split; [reflexivity | reflexivity].
  - rewrite keyLoop_cons4. split.
    + simpl. rewrite IHlen. reflexivity.
    + intros i Hi.
      destruct i as [|[|[|[|j]]]]; try reflexivity.
      * exfalso. apply Hi. reflexivity.
      * simpl. apply IHnth.
        replace (S (S (S (S j)))) with (j + 1 * 4)%nat in Hi by lia.
        rewrite Nat.Div0.mod_add in Hi. exact Hi.
Qed.

(** X2: a frame of bytes stays a frame of bytes. *)
Theorem applyChromaKey_bytes :
  forall (data : list Z) (targetHex : string) (tolerance : R),
    Forall isByte data ->
    Forall isByte (applyChromaKey data targetHex tolerance).
Proof.
  intros data targetHex tolerance. unfold applyChromaKey.
  generalize (parseTarget targetHex). intros target.
  induction data as [l Hl | r g b a rest IH] using list_ind4; intros Hbytes.
  - rewrite keyLoop_short by exact Hl. exact Hbytes.
  - rewrite keyLoop_cons4.
    inversion Hbytes as [| ? ? Hr Hb1]; subst.
    inversion Hb1 as [| ? ? Hg Hb2]; subst.
    inversion Hb2 as [| ? ? Hb Hb3]; subst.
    inversion Hb3 as [| ? ? Ha Hrest]; subst.
    repeat (constructor; [assumption |]).
    constructor; [| apply IH; exact Hrest].
    destruct (keyAlpha_cases (diff r g b target) tolerance a) as [-> | [-> | [v ->]]].
    + exact Ha.
    + unfold isByte. lia.
    + apply toUint8Clamp_range.
Qed.

Lemma applyChromaKey_bytes_witness :
  Forall isByte (applyChromaKey [10; 200; 30; 255; 0; 255; 0; 128]%Z "#00ff00" 0.1).
Proof.
  apply applyChromaKey_bytes.
  repeat constructor; unfold isByte; lia.
Defined.

Lemma keyAlpha_idempotent (d : option R) (tolerance : R) (a : Z) :
  keyAlpha d tolerance (keyAlpha d tolerance a) = keyAlpha d tolerance a.
Proof.
  unfold keyAlpha. destruct d as [d |]; [| reflexivity].
  destruct (JS.ltb d tolerance); [reflexivity |].
  destruct (JS.ltb d (tolerance + 0.05)); reflexivity.
Qed.

(** X3: keying a frame that is already keyed with the same colour and
    tolerance changes nothing. *)
Theorem applyChromaKey_idempotent :
  forall (data : list Z) (targetHex : string) (tolerance : R),
    applyChromaKey (applyChromaKey data targetHex tolerance) targetHex tolerance
    = applyChromaKey data targetHex tolerance.
Proof.
  intros data targetHex tolerance. unfold applyChromaKey.
  generalize (parseTarget targetHex). intros target.
  induction data as [l Hl | r g b a rest IH] using list_ind4.
  - rewrite !(keyLoop_short target tolerance l Hl). reflexivity.
  - rewrite !keyLoop_cons4, keyAlpha_idempotent, IH. reflexivity.
Qed.

(** The loop is the identity when no alpha is rewritten. *)
Lemma keyLoop_identity (target : option Z * option Z * option Z) (tolerance : R) :
  (forall r g b a : Z, keyAlpha (diff r g b target) tolerance a = a) ->
  forall data : list Z, keyLoop target tolerance data = data.
Proof.
  intros Hid data.
  induction data as [l Hl | r g b a rest IH] using list_ind4.
  - apply keyLoop_short. exact Hl.
  - rewrite keyLoop_cons4, Hid, IH. reflexivity.
Qed.

(** X4: when one channel of the colour string does not parse (a NaN
    channel), the frame is drawn unchanged. *)
Theorem applyChromaKey_unparsed_colour :
  forall (data : list Z) (targetHex : string) (tolerance : R)
         (rT gT bT : option Z),
    parseTarget targetHex = (rT, gT, bT) ->
    rT = None \/ gT = None \/ bT = None ->
    applyChromaKey data targetHex tolerance = data.
Proof.
  intros data targetHex tolerance rT gT bT Hparse Hnan.
  unfold applyChromaKey. rewrite Hparse. apply keyLoop_identity.
  intros r g b a. unfold diff.
  destruct Hnan as [-> | [-> | ->]]; [| destruct rT | destruct rT, gT];
    reflexivity.
Qed.

(** The three-digit colour [#0f0] has no blue channel at positions 5 and 6:
    keying with it does nothing. *)
Lemma applyChromaKey_unparsed_colour_witness :
  applyChromaKey [0; 255; 0; 255]%Z "#0f0" 0.1 = [0; 255; 0; 255]%Z.
Proof.
  apply (@applyChromaKey_unparsed_colour [0; 255; 0; 255]%Z "#0f0" 0.1
           (Some 15%Z) (Some 0%Z) None eq_refl).
  right; right; reflexivity.
Defined.

(** X5: with a tolerance of at most -0.05 the frame is drawn unchanged,
    whatever the colour. *)
Theorem applyChromaKey_negative_tolerance :
  forall (data : list Z) (targetHex : string) (tolerance : R),
    tolerance <= - 0.05 ->
    applyChromaKey data targetHex tolerance = data.
Proof.
  intros data targetHex tolerance Htol. unfold applyChromaKey.
  apply keyLoop_identity. intros r g b a.
  destruct (parseTarget targetHex) as [[[rT |] [gT |]] [bT |]]; try reflexivity.
  unfold diff. apply keyAlpha_above.
  pose proof (distance_nonneg r g b rT gT bT). lra.
Qed.

Lemma applyChromaKey_negative_tolerance_witness :
  applyChromaKey [0; 255; 0; 255]%Z "#00ff00" (- 0.05) = [0; 255; 0; 255]%Z.
Proof. apply applyChromaKey_negative_tolerance. lra. Defined.

Lemma sq_diff_byte (v w : Z) :
  isByte v -> isByte w -> (IZR v - IZR w) ^ 2 <= 65025.
Proof.
  intros [Hv0 Hv1] [Hw0 Hw1].
  apply IZR_le in Hv0, Hv1, Hw0, Hw1.
  assert (H1 : - 255 <= IZR v - IZR w) by lra.
  assert (H2 : IZR v - IZR w <= 255) by lra.
  nra.
Qed.

Lemma distance_byte_bound (r g b rT gT bT : Z) :
  isByte r -> isByte g -> isByte b ->
  isByte rT -> isByte gT -> isByte bT ->
  0 <= distance r g b rT gT bT <= 441.68 / 441.67.
Proof.
  intros Hr Hg Hb HrT HgT HbT.
  split; [apply distance_nonneg |].
  unfold distance.
  pose proof (sq_diff_byte Hr HrT). pose proof (sq_diff_byte Hg HgT).
  pose proof (sq_diff_byte Hb HbT).
  apply Rmult_le_compat_r; [apply Rlt_le, Rinv_0_lt_compat; lra |].
  rewrite <- (sqrt_square 441.68) by lra.
  apply sqrt_le_1_alt. lra.
Qed.

(** X6: for colours of bytes the normalised distance lies between 0 and
    441.68 / 441.67; it is not bounded by 1, as the distance of black to
    white shows. *)
Theorem distance_bounds :
  (forall r g b rT gT bT : Z,
      isByte r -> isByte g -> isByte b ->
      isByte rT -> isByte gT -> isByte bT ->
      0 <= distance r g b rT gT bT <= 441.68 / 441.67)
  /\ 1 < distance 0 0 0 255 255 255.
Proof.
  split.
  - intros r g b rT gT bT. apply distance_byte_bound.
  - unfold distance.
    replace ((0 - 255) ^ 2 + (0 - 255) ^ 2 + (0 - 255) ^ 2) with 195075 by lra.
    assert (H : 441.67 < sqrt 195075).
    { rewrite <- (sqrt_square 441.67) at 1 by lra. apply sqrt_lt_1_alt. lra. }
    apply Rmult_lt_reg_r with 441.67; [lra |].
    unfold Rdiv. rewrite Rmult_assoc, Rinv_l by lra. lra.
Qed.

(** X7: a pixel of exactly the target colour becomes fully transparent for
    every tolerance that is not negative, 0 included. *)
Theorem applyChromaKey_target_colour_transparent :
  forall (data : list Z) (targetHex : string) (rT gT bT : Z) (tolerance : R)
         (k : nat) (a : Z),
    parseTarget targetHex = (Some rT, Some gT, Some bT) ->
    pixel data k = Some (rT, gT, bT, a) ->
    0 <= tolerance ->
    pixel (applyChromaKey data targetHex tolerance) k = Some (rT, gT, bT, 0%Z).
Proof.
  intros data targetHex rT gT bT tolerance k a Hparse Hpix Htol.
  unfold applyChromaKey. rewrite (pixel_keyLoop _ _ _ _ Hpix), Hparse.
  do 2 f_equal. unfold diff.
  assert (Hd : distance rT gT bT rT gT bT = 0).
  { unfold distance.
    replace ((IZR rT - IZR rT) ^ 2 + (IZR gT - IZR gT) ^ 2
             + (IZR bT - IZR bT) ^ 2) with 0 by ring.
    rewrite sqrt_0. lra. }
  rewrite Hd.
  destruct (Rlt_le_dec 0 tolerance) as [Hpos | Hzero].
  - apply keyAlpha_below. exact Hpos.
  - rewrite keyAlpha_band by lra.
    apply (@toUint8Clamp_eq 0); [lia |]. unfold feather. simpl. lra.
Qed.

Lemma applyChromaKey_target_colour_transparent_witness :
  pixel (applyChromaKey [0; 255; 0; 255]%Z "#00ff00" 0) 0
  = Some (0, 255, 0, 0)%Z.
Proof.
  apply (@applyChromaKey_target_colour_transparent [0; 255; 0; 255]%Z
           "#00ff00" 0 255 0 0 0%nat 255 eq_refl eq_refl).
  lra.
Defined.

(** X8: with a tolerance of 1 or more, every pixel of bytes becomes fully
    transparent, whatever byte colour is keyed. *)
Theorem applyChromaKey_full_tolerance :
  forall (data : list Z) (targetHex : string) (rT gT bT : Z) (tolerance : R)
         (k : nat) (r g b a : Z),
    parseTarget targetHex = (Some rT, Some gT, Some bT) ->
    isByte rT -> isByte gT -> isByte bT ->
    pixel data k = Some (r, g, b, a) ->
    isByte r -> isByte g -> isByte b ->
    1 <= tolerance ->
    pixel (applyChromaKey data targetHex tolerance) k = Some (r, g, b, 0%Z).
Proof.
  intros data targetHex rT gT bT tolerance k r g b a Hparse HrT HgT HbT
         Hpix Hr Hg Hb Htol.
  unfold applyChromaKey. rewrite (pixel_keyLoop _ _ _ _ Hpix), Hparse.
  do 2 f_equal. unfold diff.
  pose proof (distance_byte_bound Hr Hg Hb HrT HgT HbT) as Hbound.
  destruct (Rlt_le_dec (distance r g b rT gT bT) tolerance) as [Hlt | Hge].
  - apply keyAlpha_below. exact Hlt.
  - assert (Hsmall : 441.68 / 441.67 < 1.0001) by lra.
    rewrite keyAlpha_band by lra.
    apply (@toUint8Clamp_eq 0); [lia |]. unfold feather. simpl. lra.
Qed.

Lemma applyChromaKey_full_tolerance_witness :
  pixel (applyChromaKey [255; 255; 255; 255]%Z "#000000" 1) 0
  = Some (255, 255, 255, 0)%Z.
Proof.
  apply (@applyChromaKey_full_tolerance [255; 255; 255; 255]%Z "#000000"
           0 0 0 1 0%nat 255 255 255 255 eq_refl);
    unfold isByte; try lia; try reflexivity; lra.
Defined.

End ChromaKeyFrames.

(** ** The time readout *)

Section TimelineProperties.

Import Compositor Timeline.
Local Open Scope R_scope.

(** The whole minutes of a number of seconds that is not negative. *)
Lemma floor_div_60 (t : R) :
  0 <= t -> Zfloor (t / 60) = (Zfloor t / 60)%Z.
Proof.
  intros Ht. pose proof (Zfloor_bound t) as [Hlo Hhi].
  set (n := Zfloor t) in *.
  pose proof (Z.div_mod n 60 ltac:(lia)) as Hdm.
  pose proof (Z.mod_pos_bound n 60 ltac:(lia)) as [Hm0 Hm1].
  apply Zfloor_eq.
  assert (Hn : IZR n = 60 * IZR (n / 60) + IZR (n mod 60)).
  { rewrite Hdm at 1. rewrite plus_IZR, mult_IZR. reflexivity. }
  assert (Hm59 : (n mod 60 <= 59)%Z) by lia.
  apply IZR_le in Hm0, Hm59. lra.
Qed.

(** The seconds left over. *)
Lemma floor_rem_60 (t : R) :
  0 <= t -> Zfloor (rem t 60) = (Zfloor t mod 60)%Z.
Proof.
  intros Ht. unfold rem, trunc.
  destruct (Rlt_dec (t / 60) 0) as [Hneg | _].
  { exfalso. assert (0 <= t / 60) by (apply Rmult_le_pos; lra). lra. }
  rewrite (floor_div_60 Ht).
  pose proof (Zfloor_bound t) as [Hlo Hhi].
  set (n := Zfloor t) in *.
  pose proof (Z.div_mod n 60 ltac:(lia)) as Hdm.
  assert (Hn : IZR n = 60 * IZR (n / 60) + IZR (n mod 60)).
  { rewrite Hdm at 1. rewrite plus_IZR, mult_IZR. reflexivity. }
  apply Zfloor_eq. lra.
Qed.

(** Two digits for every number below 100. *)
Lemma padStart2_length (z : Z) :
  (0 <= z < 100)%Z -> String.length (padStart2 (JS.showZ z)) = 2%nat.
Proof.
  intros Hz.
  assert (Hall : forallb (fun k => Nat.eqb (String.length
                    (padStart2 (JS.showZ (Z.of_nat k)))) 2) (seq 0 100) = true)
    by (vm_compute; reflexivity).
  rewrite forallb_forall in Hall.
  specialize (Hall (Z.to_nat z)).
  rewrite Z2Nat.id in Hall by lia.
  apply Nat.eqb_eq, Hall, in_seq. lia.
Qed.

Lemma append_length (s1 s2 : string) :
  String.length (String.append s1 s2) = (String.length s1 + String.length s2)%nat.
Proof. induction s1 as [|c s1 IH]; simpl; [| rewrite IH]; reflexivity. Qed.

(** X9: for a time that is not negative, [formatTime] shows the whole
    seconds split into minutes and seconds below 60, each padded to two
    digits; below 100 minutes the text has exactly the five characters of
    mm:ss. *)
Theorem formatTime_minutes_seconds :
  forall t : R,
    0 <= t ->
    let n := Zfloor t in
    formatTime (Some t)
    = String.append (padStart2 (JS.showZ (n / 60)))
        (String.append ":" (padStart2 (JS.showZ (n mod 60))))
    /\ (0 <= n mod 60 < 60)%Z
    /\ (60 * (n / 60) + n mod 60 = n)%Z
    /\ (t < 6000 -> String.length (formatTime (Some t)) = 5%nat).
Proof.
  intros t Ht n.
  assert (Hfmt : formatTime (Some t)
                 = String.append (padStart2 (JS.showZ (n / 60)))
                     (String.append ":" (padStart2 (JS.showZ (n mod 60))))).
  { unfold formatTime. rewrite (floor_div_60 Ht), (floor_rem_60 Ht).
    reflexivity. }
  pose proof (Z.mod_pos_bound n 60 ltac:(lia)) as Hmod.
  pose proof (Z.div_mod n 60 ltac:(lia)) as Hdm.
  split; [exact Hfmt |]. split; [exact Hmod |]. split; [lia |].
  intros Hlt. rewrite Hfmt, !append_length.
  assert (Hn0 : (0 <= n)%Z).
  { apply Zfloor_lub. simpl. exact Ht. }
  assert (Hn1 : (n < 6000)%Z).
  { apply lt_IZR. pose proof (Zfloor_bound t) as [Hlo _]. fold n in Hlo. lra. }
  rewrite !padStart2_length; [reflexivity | lia |].
  split; [apply Z.div_pos; lia | apply Z.div_lt_upper_bound; lia].
Qed.

(** 125.7 seconds read 02:05. *)
Lemma formatTime_minutes_seconds_witness :
  formatTime (Some 125.7) = "02:05"%string.
Proof.
  destruct (@formatTime_minutes_seconds 125.7 ltac:(lra)) as [Hfmt _].
  rewrite Hfmt.
  assert (Hn : Zfloor 125.7 = 125%Z) by (apply Zfloor_eq; simpl; lra).
  rewrite Hn. reflexivity.
Defined.

(** X10: when the background is a video with a positive duration and the
    playback position lies between 0 and that duration, the progress bar
    gets a width between 0 and 100 percent and the display reads
    "elapsed / total"; when the background is not a video layer nothing is
    displayed. *)
Theorem updateTimeline_progress :
  forall (st : State) (currentTime : R),
    (forall (vw vh : Z) (d : R),
        element (getLayer st background) = Some (VideoElement vw vh (Some d)) ->
        type (getLayer st background) = Some video ->
        0 < d -> 0 <= currentTime <= d ->
        exists p : R,
          updateTimeline st currentTime
          = Some (Some p,
                  String.append (formatTime (Some currentTime))
                    (String.append " / " (formatTime (Some d))))
          /\ 0 <= p <= 100)
    /\ (isVideoLayer (type (getLayer st background)) = false ->
        updateTimeline st currentTime = None).
Proof.
  intros st currentTime. split.
  - intros vw vh d Hel Hty Hd Hct.
    exists (currentTime / d * 100). unfold updateTimeline.
    rewrite Hel, Hty. simpl.
    destruct (Req_dec_T d 0) as [H0 | _]; [lra |].
    split; [reflexivity |].
    assert (Hinv : 0 < / d) by (apply Rinv_0_lt_compat; exact Hd).
    assert (Hq0 : 0 <= currentTime / d) by (apply Rmult_le_pos; lra).
    assert (Hq1 : currentTime / d <= 1).
    { apply Rmult_le_reg_r with d; [exact Hd |].
      unfold Rdiv. rewrite Rmult_assoc, Rinv_l by lra. lra. }
    lra.
  - intros Hnv. unfold updateTimeline.
    destruct (element (getLayer st background)); [| reflexivity].
    rewrite Hnv. reflexivity.
Qed.

(** A background video of 10 seconds at the position 2.5 seconds. *)
Lemma updateTimeline_progress_witness :
  let st :=
    handleUpload (Some (mkFile "bg.mp4" "video/mp4")) background
                 (loadedmetadata 1920 1080 (Some 10)) initial in
  exists p : R,
    updateTimeline st 2.5 = Some (Some p, "00:02 / 00:10"%string)
    /\ 0 <= p <= 100.
Proof.
  intros st.
  destruct (@updateTimeline_progress st 2.5) as [H _].
  destruct (H 1920%Z 1080%Z 10 eq_refl eq_refl ltac:(lra) ltac:(lra))
    as [p [Hp Hbound]].
  exists p. split; [| exact Hbound].
  rewrite Hp. do 2 f_equal. unfold formatTime.
  rewrite !floor_div_60, !floor_rem_60 by lra.
  assert (H2 : Zfloor 2.5 = 2%Z) by (apply Zfloor_eq; simpl; lra).
  assert (H10 : Zfloor 10 = 10%Z) by (apply Zfloor_eq; simpl; lra).
  rewrite H2, H10. reflexivity.
Defined.

End TimelineProperties.

(** ** Dragging *)

Section PointerProperties.

Import Compositor Pointer.
Local Open Scope R_scope.

Lemma selectedLayer_updLayer (k : LayerKey) (f : Layer -> Layer) (st : State) :
  selectedLayer (updLayer k f st) = selectedLayer st
  /\ canvas (updLayer k f st) = canvas st.
Proof. destruct k; split; reflexivity. Qed.




(** X12: while the selected layer has no source, no sequence of mouse
    events starts a drag or changes the state. *)
Theorem mouse_on_empty_layer :
  forall (events : list MouseEvent) (st : State) (dr : Drag),
    element (getLayer st (selectedLayer st)) = None ->
    isDragging dr = false ->
    fst (runMouse events (st, dr)) = st
    /\ isDragging (snd (runMouse events (st, dr))) = false.
Proof.
  induction events as [|e events IH]; intros st dr Hel Hdrag.
  - split; [reflexivity | exact Hdrag].
  - unfold runMouse. simpl fold_left.
    fold (runMouse events (onMouse (st, dr) e)).
    destruct e as [cx cy | cx cy rw rh |]; simpl onMouse.
    + rewrite Hel. apply IH; assumption.
    + rewrite Hdrag. simpl. apply IH; assumption.
    + apply IH; [assumption | reflexivity].
Qed.

Lemma mouse_on_empty_layer_witness :
  fst (runMouse [mousedown 5 5; mousemove 50 60 960 540; mouseup]
         (initial, noDrag)) = initial.
Proof.
  apply (@mouse_on_empty_layer [mousedown 5 5; mousemove 50 60 960 540; mouseup]
           initial noDrag eq_refl eq_refl).
Defined.

End PointerProperties.

(** ** Sequences of handler calls *)

Section SessionProperties.

Import Compositor Session.
Local Open Scope R_scope.

(** The invariant of [consistent], as a proposition. *)
Lemma consistent_iff (st : State) :
  consistent st = true <->
  (forall k : LayerKey, kindMatches (getLayer st k) = true)
  /\ canvas st = resolution st
  /\ forallb (fun t => isVideoElement (task_el t)) (timers st) = true.
Proof.
  unfold consistent. rewrite !andb_true_iff, !Z.eqb_eq.
  destruct (canvas st) as [cw ch], (resolution st) as [rw rh]. simpl.
  split.
  - intros [[[[[Hb Hc] Ho] Hw] Hh] Ht].
    split; [intros k; destruct k; assumption |].
    split; [congruence | exact Ht].
  - intros [Hk [Hcr Ht]]. inversion Hcr; subst.
    repeat split; try reflexivity;
      [exact (Hk background) | exact (Hk character) | exact (Hk overlay)
      | exact Ht].
Qed.

Lemma kindMatches_same (l l' : Layer) :
  element l' = element l -> type l' = type l ->
  posterFrame l' = posterFrame l ->
  kindMatches l' = kindMatches l.
Proof. intros He Ht Hp. unfold kindMatches. rewrite He, Ht, Hp. reflexivity. Qed.

(** An update of one layer that keeps its kind, element and poster. *)
Lemma consistent_updLayer (k : LayerKey) (f : Layer -> Layer) (st : State) :
  (forall l : Layer, kindMatches l = true -> kindMatches (f l) = true) ->
  consistent st = true -> consistent (updLayer k f st) = true.
Proof.
  intros Hf Hst. apply consistent_iff in Hst. destruct Hst as [Hk [Hcr Ht]].
  apply consistent_iff. split; [| split].
  - intros k'. destruct (selectedLayer_updLayer k f st) as [_ _].
    destruct k, k'; simpl; try apply Hf; apply (Hk background)
      || apply (Hk character) || apply (Hk overlay).
  - destruct k; exact Hcr.
  - destruct k; exact Ht.
Qed.

Lemma kindMatches_position (vx vy : R) (l : Layer) :
  kindMatches l = true -> kindMatches (set_y vy (set_x vx l)) = true.
Proof. intros H. rewrite <- H. apply kindMatches_same; reflexivity. Qed.

Lemma kindMatches_assignField (key : string) (v : R) (l : Layer) :
  kindMatches l = true -> kindMatches (assignField key v l) = true.
Proof.
  intros H. rewrite <- H. unfold assignField.
  repeat match goal with
         | |- context [if ?c then _ else _] => destruct c
         end; apply kindMatches_same; reflexivity.
Qed.

Lemma consistent_setupElement (layerKey : LayerKey) (ty : LayerType)
      (el : Element) (isError : bool) (st : State) :
  match (if isError then placeholder else ty), el with
  | video, VideoElement _ _ _ => True
  | image, ImageElement _ _ => True
  | placeholder, PlaceholderObject w h _ => w = 1280%Z /\ h = 720%Z
  | _, _ => False
  end ->
  (isVideoType ty && negb isError = true -> isVideoElement el = true) ->
  consistent st = true ->
  consistent (setupElement layerKey ty el isError st) = true.
Proof.
  intros Hkind Htask Hst.
  apply consistent_iff in Hst. destruct Hst as [Hk [Hcr Ht]].
  assert (Hnew : forall l : Layer,
             kindMatches l = true ->
             kindMatches
               (set_scale 1
                  (set_y 0
                     (set_x 0
                        (set_type (Some (if isError then placeholder else ty))
                           (set_element (Some el) l))))) = true).
  { intros l Hl. unfold kindMatches in *. simpl.
    apply andb_true_iff in Hl. destruct Hl as [_ Hposter].
    rewrite Hposter, andb_true_r.
    destruct (if isError then placeholder else ty), el; try contradiction;
      try reflexivity.
    destruct Hkind as [-> ->]. reflexivity. }
  assert (Hfit : forall (cv : Z * Z) (l : Layer),
             kindMatches l = true -> kindMatches (autoFit cv el l) = true).
  { intros cv l Hl. rewrite <- Hl. unfold autoFit.
    repeat match goal with
           | |- context [if ?c then _ else _] => destruct c
           end; apply kindMatches_same; reflexivity. }
  apply consistent_iff. unfold setupElement.
  split; [| split].
  - intros k.
    destruct (isBackground layerKey || negb isError);
      destruct layerKey, k; simpl;
      try apply Hfit; try apply Hnew;
        apply (Hk background) || apply (Hk character) || apply (Hk overlay).
  - destruct (isBackground layerKey || negb isError); destruct layerKey;
      exact Hcr.
  - assert (Htimers :
             forallb (fun t => isVideoElement (task_el t))
               (if isVideoType ty && negb isError
                then timers st ++ [mkPosterTask layerKey el] else timers st)
             = true).
    { destruct (isVideoType ty && negb isError).
      - rewrite forallb_app, Ht. simpl. rewrite Htask by reflexivity.
        reflexivity.
      - exact Ht. }
    destruct (isBackground layerKey || negb isError); destruct layerKey;
      exact Htimers.
Qed.

Lemma consistent_handleUpload (file : option File) (layerKey : LayerKey)
      (ev : LoadEvent) (st : State) :
  consistent st = true -> consistent (handleUpload file layerKey ev st) = true.
Proof.
  intros Hst. unfold handleUpload. destruct file as [file |]; [| exact Hst].
  destruct (uploadType file) eqn:Hty, ev as [vw vh d | w h |];
    try exact Hst;
    apply consistent_setupElement; simpl; auto.
Qed.

Lemma consistent_runTimer (drawn : bool) (st : State) :
  consistent st = true -> consistent (runTimer drawn st) = true.
Proof.
  intros Hst. unfold runTimer.
  destruct (timers st) as [|task rest] eqn:Htimers; [exact Hst |].
  apply consistent_iff in Hst. destruct Hst as [Hk [Hcr Ht]].
  rewrite Htimers in Ht. simpl in Ht. apply andb_true_iff in Ht.
  destruct Ht as [_ Hrest].
  assert (Hst' : consistent
                   (mkState (layers st) (isPlaying st) (isExporting st)
                      (duration st) (resolution st) (canvas st)
                      (selectedLayer st) rest) = true).
  { apply consistent_iff. split; [exact Hk | split; [exact Hcr | exact Hrest]]. }
  unfold posterTimeout. destruct drawn; [| exact Hst'].
  apply consistent_updLayer; [| exact Hst'].
  intros l Hl. unfold kindMatches in *. simpl.
  apply andb_true_iff in Hl. destruct Hl as [Hkind _].
  rewrite Hkind. reflexivity.
Qed.

Lemma consistent_onMouse (st : State) (dr : Pointer.Drag)
      (e : Pointer.MouseEvent) :
  consistent st = true -> consistent (fst (Pointer.onMouse (st, dr) e)) = true.
Proof.
  intros Hst. destruct e as [cx cy | cx cy rw rh |]; simpl.
  - destruct (element (getLayer st (selectedLayer st))); exact Hst.
  - destruct (negb (Pointer.isDragging dr)); [exact Hst |]. simpl.
    apply consistent_updLayer; [| exact Hst].
    intros l. apply kindMatches_position.
  - exact Hst.
Qed.

(** Every handler keeps the state consistent. *)
Lemma consistent_act (a : Action) (st : State) (dr : Pointer.Drag) :
  consistent st = true -> consistent (fst (act (st, dr) a)) = true.
Proof.
  intros Hst.
  destruct a as [k | c v | b | value | v | w h | | byHeight | file layerKey ev
                 | drawn | e | sup | now s]; simpl.
  - exact Hst.
  - apply consistent_updLayer; [| exact Hst].
    intros l. apply kindMatches_assignField.
  - apply consistent_updLayer; [| exact Hst].
    intros l Hl. rewrite <- Hl. apply kindMatches_same; reflexivity.
  - apply consistent_updLayer; [| exact Hst].
    intros l Hl. rewrite <- Hl. apply kindMatches_same; reflexivity.
  - apply consistent_updLayer; [| exact Hst].
    intros l Hl. rewrite <- Hl. apply kindMatches_same; reflexivity.
  - unfold onResolutionChange, forEachLayer.
    repeat (apply consistent_updLayer; [intros l; apply kindMatches_position |]).
    apply consistent_iff in Hst. destruct Hst as [Hk [_ Ht]].
    apply consistent_iff. split; [exact Hk | split; [reflexivity | exact Ht]].
  - apply consistent_updLayer; [| exact Hst].
    intros l. apply kindMatches_position.
  - unfold fitLayer.
    destruct (element (getLayer st (selectedLayer st))); [| exact Hst].
    apply consistent_updLayer; [| exact Hst].
    intros l Hl. rewrite <- Hl. apply kindMatches_same; reflexivity.
  - apply consistent_handleUpload. exact Hst.
  - apply consistent_runTimer. exact Hst.
  - apply consistent_onMouse. exact Hst.
  - unfold ExportPipeline.exportVideo.
    destruct (ExportPipeline.negotiate sup) as [[mime ext] warned]. simpl.
    apply consistent_iff in Hst. apply consistent_iff. exact Hst.
  - apply consistent_iff in Hst. apply consistent_iff. exact Hst.
Qed.

Lemma consistent_runActions (actions : list Action) :
  forall (st : State) (dr : Pointer.Drag),
    consistent st = true ->
    consistent (fst (runActions actions (st, dr))) = true.
Proof.
  induction actions as [|a actions IH]; intros st dr Hst; [exact Hst |].
  change (runActions (a :: actions) (st, dr))
    with (runActions actions (act (st, dr) a)).
  pose proof (consistent_act a st dr Hst) as Hstep.
  destruct (act (st, dr) a) as [st1 dr1]. apply IH. exact Hstep.
Qed.

(** X13: in every state reached from the initial one by any sequence of
    handler calls (selection, controls, resolution, quick actions, uploads
    with their load events, poster timeouts, mouse events, start and end of
    an export) the kind of each layer names its element, a placeholder is
    the object of 1280 x 720, a cached poster is a canvas, the canvas has
    the size of the resolution and every waiting poster capture holds a
    video; hence a layer is skipped by the compositor exactly when its kind
    is none. *)
Theorem reachable_states_consistent :
  forall (actions : list Action) (dr : Pointer.Drag),
    let st := fst (runActions actions (initial, dr)) in
    consistent st = true
    /\ forall k : LayerKey,
        drawLayer st k = None <-> type (getLayer st k) = None.
Proof.
  intros actions dr st.
  assert (Hst : consistent st = true).
  { apply consistent_runActions. reflexivity. }
  split; [exact Hst |].
  intros k. apply consistent_iff in Hst. destruct Hst as [Hk _].
  specialize (Hk k). unfold kindMatches in Hk.
  apply andb_true_iff in Hk. destruct Hk as [Hkind _].
  unfold drawLayer.
  destruct (type (getLayer st k)) as [[| |] |],
    (element (getLayer st k)) as [el |]; try discriminate;
    destruct (canvas st) as [cw ch]; simpl.
  - destruct (posterFrame (getLayer st k));
      destruct (chromaKey (getLayer st k));
      try destruct (negb (isExporting st) && negb (isBackground k));
      split; discriminate.
  - destruct (posterFrame (getLayer st k));
      destruct (chromaKey (getLayer st k)); split; discriminate.
  - split; discriminate.
  - split; reflexivity.
Qed.

End SessionProperties.

(** ** Uploads, fitting and the frame *)

Section UploadProperties.

Import Compositor.
Local Open Scope R_scope.

Lemma toLowerCase_append (s1 s2 : string) :
  JS.toLowerCase (String.append s1 s2)
  = String.append (JS.toLowerCase s1) (JS.toLowerCase s2).
Proof. induction s1 as [|c s1 IH]; simpl; [| rewrite IH]; reflexivity. Qed.

Lemma drop_append (s1 s2 : string) :
  JS.drop (String.length s1) (String.append s1 s2) = s2.
Proof. induction s1 as [|c s1 IH]; simpl; [destruct s2 |]; auto. Qed.

Lemma endsWith_append (s p : string) :
  JS.endsWith (String.append s p) p = true.
Proof.
  unfold JS.endsWith. rewrite append_length.
  replace (String.length s + String.length p - String.length p)%nat
    with (String.length s) by lia.
  rewrite drop_append, String.eqb_refl, andb_true_r.
  apply Nat.leb_le. lia.
Qed.

(** X14: a file is taken for a video when its name ends in [.mov] in any
    mix of upper and lower case, whatever its MIME type, and when its MIME
    type starts with [video], whatever its name. *)
Theorem mov_and_video_types_are_videos :
  forall (base ext mime name rest : string),
    JS.toLowerCase ext = ".mov"%string ->
    isVideo (mkFile (String.append base ext) mime) = true
    /\ uploadType (mkFile (String.append base ext) mime) = video
    /\ isVideo (mkFile name (String.append "video" rest)) = true.
Proof.
  intros base ext mime name rest Hext.
  assert (Hmov : isVideo (mkFile (String.append base ext) mime) = true).
  { unfold isVideo. simpl fileName.
    rewrite toLowerCase_append, Hext, endsWith_append. apply orb_true_r. }
  split; [exact Hmov |]. split.
  - unfold uploadType. rewrite Hmov. reflexivity.
  - unfold isVideo, JS.startsWith. simpl.
    repeat match goal with
           | |- context [Ascii.ascii_dec ?a ?b] =>
               destruct (Ascii.ascii_dec a b); [| congruence]
           end.
    destruct rest; reflexivity.
Qed.

Lemma mov_and_video_types_are_videos_witness :
  isVideo (mkFile "Take 1.MoV" "") = true.
Proof.
  destruct (@mov_and_video_types_are_videos "Take 1" ".MoV" "" "" "" eq_refl)
    as [H _].
  exact H.
Defined.

(** The natural size of a poster canvas is that of its video when the video
    reports a size. *)
Lemma poster_size (vw vh : Z) :
  vw <> 0%Z -> vh <> 0%Z ->
  JS.orZ (Some vw) 1920 = vw /\ JS.orZ (Some vh) 1080 = vh
  /\ JS.orZ (Some vw) 0 = vw /\ JS.orZ (Some vh) 0 = vh.
Proof.
  intros Hw Hh. unfold JS.orZ.
  apply Z.eqb_neq in Hw, Hh. rewrite Hw, Hh. repeat split.
Qed.

(** X15: once the poster frame of a layer's video has been captured, and
    the video reports a width and a height that are not 0, the layer is
    drawn into the same rectangle in the preview, from the poster, as during
    an export, from the video. *)
Theorem poster_keeps_rectangle :
  forall (st : State) (k : LayerKey) (vw vh : Z) (d : option R)
         (isTypeSupported : string -> bool),
    element (getLayer st k) = Some (VideoElement vw vh d) ->
    vw <> 0%Z -> vh <> 0%Z ->
    let st1 := posterTimeout (mkPosterTask k (VideoElement vw vh d)) true st in
    option_map rect
      (drawLayer (fst (ExportPipeline.exportVideo isTypeSupported st1)) k)
    = option_map rect (drawLayer st1 k)
    /\ drawLayer st1 k <> None.
Proof.
  intros st k vw vh d sup Hel Hw Hh st1.
  destruct (poster_size Hw Hh) as [Hpw [Hph [Hvw Hvh]]].
  assert (Hl1 : getLayer st1 k
                = set_posterFrame (Some (CanvasElement vw vh)) (getLayer st k)).
  { unfold st1, posterTimeout. simpl task_layer. simpl task_el.
    rewrite getLayer_updLayer_same. simpl videoWidth. simpl videoHeight.
    rewrite Hpw, Hph. reflexivity. }
  assert (Hcanvas : canvas st1 = canvas st).
  { unfold st1, posterTimeout. simpl. destruct k; reflexivity. }
  assert (Hexp : forall k', getLayer (fst (ExportPipeline.exportVideo sup st1)) k'
                            = getLayer st1 k').
  { intros k'. unfold ExportPipeline.exportVideo.
    destruct (ExportPipeline.negotiate sup) as [[mime ext] warned].
    destruct k'; reflexivity. }
  assert (Hexpc : canvas (fst (ExportPipeline.exportVideo sup st1)) = canvas st1).
  { unfold ExportPipeline.exportVideo.
    destruct (ExportPipeline.negotiate sup) as [[mime ext] warned]. reflexivity. }
  assert (Hflag : isExporting (fst (ExportPipeline.exportVideo sup st1)) = true).
  { unfold ExportPipeline.exportVideo.
    destruct (ExportPipeline.negotiate sup) as [[mime ext] warned]. reflexivity. }
  unfold drawLayer. rewrite Hexp, Hexpc, Hflag, Hl1. simpl element.
  rewrite Hel. simpl posterFrame. simpl type. simpl scale. simpl x. simpl y.
  simpl opacity. simpl chromaKey. simpl chromaColor. simpl tolerance.
  destruct (canvas st1) as [cw ch].
  destruct (isPlaceholderType (type (getLayer st k)));
    [split; [reflexivity | discriminate] |].
  simpl negb. rewrite andb_false_r. simpl andb. cbv beta iota.
  match goal with
  | |- context [if ?c then CanvasElement _ _ else _] => destruct c
  end;
    simpl videoWidth; simpl videoHeight; simpl width; simpl height;
    rewrite ?Hvw, ?Hvh; unfold JS.orZ;
    destruct (chromaKey (getLayer st k)); split; try reflexivity;
    discriminate.
Qed.

Lemma poster_keeps_rectangle_witness :
  let st :=
    handleUpload (Some (mkFile "clip.mp4" "video/mp4")) character
                 (loadedmetadata 640 360 (Some 10)) initial in
  let st1 := runTimer true st in
  option_map rect
    (drawLayer (fst (ExportPipeline.exportVideo (fun _ => true) st1)) character)
  = option_map rect (drawLayer st1 character).
Proof.
  intros st st1.
  destruct (@poster_keeps_rectangle
              (mkState (layers st) (isPlaying st) (isExporting st) (duration st)
                 (resolution st) (canvas st) (selectedLayer st) [])
              character 640 360 (Some 10) (fun _ => true) eq_refl
              ltac:(discriminate) ltac:(discriminate)) as [H _].
  exact H.
Defined.

End UploadProperties.

(** ** Geometry after the quick actions *)

Section GeometryProperties.

Import Compositor.
Local Open Scope R_scope.








End GeometryProperties.

(** ** The export session *)

Section ExportSessionProperties.

Import Compositor ExportPipeline.
Local Open Scope R_scope.

Lemma tick_chunks (s : Session) : chunks (tick s) = chunks s.
Proof. unfold tick. destruct (intervalActive s); reflexivity. Qed.

(** X19: whatever runs of the progress callback come in between, the file
    offered at the end is made of the chunks of the recorder's data events,
    in the order of their arrival. *)
Theorem export_keeps_chunk_order :
  forall (events : list RecorderEvent) (isTypeSupported : string -> bool)
         (st st' : State) (now : Z),
    blobParts
      (snd (onstop now (run events (snd (exportVideo isTypeSupported st))) st'))
    = flat_map (fun e => match e with
                         | DataAvailable data => [data]
                         | Interval => []
                         end) events.
Proof.
  intros events sup st st' now.
  assert (H : forall (evs : list RecorderEvent) (s : Session),
             chunks (run evs s)
             = chunks s
               ++ flat_map (fun e => match e with
                                     | DataAvailable data => [data]
                                     | Interval => []
                                     end) evs).
  { induction evs as [|e evs IH]; intros s.
    - simpl. rewrite app_nil_r. reflexivity.
    - change (run (e :: evs) s) with (run evs (step s e)).
      rewrite IH. destruct e as [| data]; simpl.
      + rewrite tick_chunks. reflexivity.
      + rewrite <- app_assoc. reflexivity. }
  unfold onstop. simpl. rewrite H.
  unfold exportVideo. destruct (negotiate sup) as [[mime ext] warned].
  reflexivity.
Qed.




End ExportSessionProperties.

(** ** Uploads within a session *)

Section UploadSessionProperties.

Import Compositor Session.
Local Open Scope R_scope.

Lemma duration_updLayer (k : LayerKey) (f : Layer -> Layer) (st : State) :
  duration (updLayer k f st) = duration st.
Proof. destruct k; reflexivity. Qed.

Lemma duration_setupElement (layerKey : LayerKey) (ty : LayerType)
      (el : Element) (isError : bool) (st : State) :
  duration (setupElement layerKey ty el isError st)
  = if isBackground layerKey && negb isError
    then Rmax (duration st) (JS.orR (elDuration el) 0)
    else duration st.
Proof.
  unfold setupElement.
  destruct (isBackground layerKey || negb isError);
    destruct (isBackground layerKey && negb isError);
    destruct layerKey; reflexivity.
Qed.

(** X22: no handler ever lowers the composition's [duration]; and after a
    video with the duration d has loaded into the background, [duration] is
    at least d. *)
Theorem duration_never_decreases :
  forall (st : State) (dr : Pointer.Drag),
    (forall a : Action, duration st <= duration (fst (act (st, dr) a)))
    /\ (forall (file : File) (vw vh : Z) (d : R),
          isVideo file = true ->
          d <= duration (handleUpload (Some file) background
                           (loadedmetadata vw vh (Some d)) st)).
Proof.
  intros st dr. split.
  - intros a.
    destruct a as [k | c v | b | value | v | w h | | byHeight | file layerKey ev
                   | drawn | e | sup | now s]; simpl;
      try (rewrite duration_updLayer; lra); try lra.
    + unfold fitLayer.
      destruct (element (getLayer st (selectedLayer st)));
        rewrite ?duration_updLayer; lra.
    + unfold handleUpload. destruct file as [file |]; [| lra].
      destruct (uploadType file), ev as [vw vh d | w h |]; try lra;
        rewrite duration_setupElement;
        destruct (isBackground layerKey && negb _);
        try apply Rmax_l; lra.
    + unfold runTimer. destruct (timers st) as [|task rest]; [lra |].
      unfold posterTimeout. destruct drawn;
        rewrite ?duration_updLayer; simpl; lra.
    + destruct e as [cx cy | cx cy rw rh |]; simpl.
      * destruct (element (getLayer st (selectedLayer st))); simpl; lra.
      * destruct (negb (Pointer.isDragging dr)); simpl;
          rewrite ?duration_updLayer; lra.
      * lra.
    + unfold ExportPipeline.exportVideo.
      destruct (ExportPipeline.negotiate sup) as [[mime ext] warned].
      simpl. lra.
  - intros file vw vh d Hvideo. unfold handleUpload, uploadType.
    rewrite Hvideo, duration_setupElement. simpl.
    unfold JS.orR. destruct (Req_dec_T d 0) as [-> | _].
    + apply Rmax_r.
    + apply Rmax_r.
Qed.

(** X23: a successful load selects the layer it went into: the next input
    of the scale control sets the scale of that layer and leaves the other
    layers as the upload left them. *)
Theorem upload_selects_layer :
  forall (st : State) (layerKey : LayerKey) (ty : LayerType) (el : Element)
         (isError : bool) (v : R),
    let st1 := setupElement layerKey ty el isError st in
    selectedLayer st1 = layerKey
    /\ scale (getLayer (onSharedInput scaleInput v st1) layerKey) = v
    /\ (forall k : LayerKey,
          k <> layerKey ->
          getLayer (onSharedInput scaleInput v st1) k = getLayer st k).
Proof.
  intros st layerKey ty el isError v st1.
  assert (Hsel : selectedLayer st1 = layerKey).
  { unfold st1, setupElement.
    destruct (isBackground layerKey || negb isError); destruct layerKey;
      reflexivity. }
  assert (Hinput : onSharedInput scaleInput v st1
                   = updLayer layerKey (set_scale v) st1).
  { change (onSharedInput scaleInput v st1)
      with (updLayer (selectedLayer st1) (set_scale v) st1).
    rewrite Hsel. reflexivity. }
  split; [exact Hsel |]. rewrite Hinput. split.
  - rewrite getLayer_updLayer_same. reflexivity.
  - intros k Hk.
    rewrite getLayer_updLayer_other by congruence.
    destruct (setupElement_frame st layerKey ty el isError) as [_ [_ Hother]].
    apply Hother. exact Hk.
Qed.

End UploadSessionProperties.

(** ** The colour strings of the colour input *)

Section ColourStrings.

Import ChromaKey.

(** The colour [#1e90ff] has the channels 30, 144 and 255. *)
Lemma parseTarget_rrggbb_witness :
  parseTarget "#1e90ff" = (Some 30%Z, Some 144%Z, Some 255%Z).
Proof.
  destruct (@parseTarget_rrggbb "1" "e" "9" "0" "f" "f" 1 14 9 0 15 15
              eq_refl eq_refl eq_refl eq_refl eq_refl eq_refl) as [H _].
  exact H.
Defined.

End ColourStrings.
